(** * AutoCrew: the orchestration script [autocrew.py]

    A shallow embedding of the command-line driver of AutoCrew and of the
    contracts of the [core.AutoCrew] object it drives.  Python values are
    modelled by their Rocq counterparts ([str] as [string], [int] as [Z],
    [None]-able values as [option]); the effects of the script (logging,
    terminal input and output, calls into [core], [subprocess] and the
    file system) are threaded through an explicit world state by a small
    monad whose outcomes distinguish a normal return, a raised [Exception]
    and [SystemExit]. *)

From Stdlib Require Import ZArith Ascii String List Permutation Lia.
From stdpp Require Import base tactics option list strings gmap pretty sorting.

Local Open Scope Z_scope.

(** ** Python built-ins used by the script *)

Module Py.

(** [len(s)] *)
Definition len (s : string) : Z := Z.of_nat (String.length s).

Fixpoint take (n : nat) (s : string) : string :=
  match n, s with
  | S n', String c s' => String c (take n' s')
  | _, _ => EmptyString
  end.

Fixpoint drop (n : nat) (s : string) : string :=
  match n, s with
  | S n', String _ s' => drop n' s'
  | _, _ => s
  end.

(** [s[:stop]]: a negative [stop] counts from the end of the string, and
    both ends are clamped to the string. *)
Definition slice_to (s : string) (stop : Z) : string :=
  if 0 <=? stop then take (Z.to_nat stop) s
  else take (Z.to_nat (len s + stop)) s.

(** Truth value of a [str], a [list], an [int] and of a [None]-able
    value, as tested by [if x] and [not x]. *)
Definition truthy_str (s : string) : bool :=
  match s with EmptyString => false | _ => true end.

Definition truthy_list {A} (l : list A) : bool :=
  match l with [] => false | _ => true end.

Definition truthy_int (z : Z) : bool := negb (z =? 0).

Definition truthy_opt {A} (t : A → bool) (o : option A) : bool :=
  match o with None => false | Some a => t a end.

(** [any(l)] on a list of truth values *)
Definition any (l : list bool) : bool := existsb id l.

(** White space as [str.strip()] and [int()] see it, among the first 256
    code points. *)
Definition isspace (c : ascii) : bool :=
  let n := N_of_ascii c in
  ((9 <=? n) && (n <=? 13) || (28 <=? n) && (n <=? 32) || (n =? 133) || (n =? 160))%N.

Fixpoint lstrip (s : string) : string :=
  match s with
  | String c s' => if isspace c then lstrip s' else s
  | EmptyString => EmptyString
  end.

Definition rstrip (s : string) : string :=
  String.rev (lstrip (String.rev s)).

(** [s.strip()] *)
Definition strip (s : string) : string := rstrip (lstrip s).

(** [s.split(sep, 1)] for a one-character separator: the text before the
    first separator and the text after it, or [None] when the separator
    does not occur (the one-element list, whose unpacking into two names
    raises [ValueError]). *)
Fixpoint split1 (sep : ascii) (s : string) : option (string * string) :=
  match s with
  | EmptyString => None
  | String c s' =>
      if decide (c = sep) then Some (EmptyString, s')
      else '(a, b) ← split1 sep s'; Some (String c a, b)
  end.

Fixpoint startswith (p s : string) : bool :=
  match p, s with
  | EmptyString, _ => true
  | String a p', String b s' => if decide (a = b) then startswith p' s' else false
  | String _ _, EmptyString => false
  end.

(** [s.replace(old, new)] for a non-empty [old]: every occurrence, found
    left to right without overlap.  [skip] counts the characters of the
    occurrence just replaced that are still to be passed over. *)
Fixpoint replace_go (old new : string) (skip : nat) (s : string) : string :=
  match s with
  | EmptyString => EmptyString
  | String c s' =>
      match skip with
      | S k => replace_go old new k s'
      | O =>
          if startswith old s
          then new +:+ replace_go old new (String.length old - 1) s'
          else String c (replace_go old new 0 s')
      end
  end.

Definition replace (old new s : string) : string := replace_go old new 0 s.

(** [' '.join(l)] *)
Fixpoint join (sep : string) (l : list string) : string :=
  match l with
  | [] => EmptyString
  | [x] => x
  | x :: l' => x +:+ sep +:+ join sep l'
  end.

(** *** [int(s)] on a [str]

    Base ten: optional surrounding white space, an optional sign, then
    digits, where single underscores may separate digits.  [None] stands
    for [ValueError]. *)
Definition digit (c : ascii) : option Z :=
  Z.of_nat <$> Ascii.is_nat c.

(** [acc] is the value read so far; [prev] tells whether the previous
    character was a digit (an underscore must stand between two digits). *)
Fixpoint digits_go (acc : Z) (prev : bool) (s : string) : option Z :=
  match s with
  | EmptyString => if prev then Some acc else None
  | String c s' =>
      match digit c with
      | Some d => digits_go (10 * acc + d) true s'
      | None =>
          if decide (c = "_"%char) then
            if prev then
              match s' with
              | EmptyString => None
              | _ => digits_go acc false s'
              end
            else None
          else None
      end
  end.

Definition int (s : string) : option Z :=
  match strip s with
  | String "-" s' => Z.opp <$> digits_go 0 false s'
  | String "+" s' => digits_go 0 false s'
  | s' => digits_go 0 false s'
  end.

(** The characters a string literal cannot hold as they are. *)
Definition nl : string := String (ascii_of_nat 10) EmptyString.
Definition dq : string := String (ascii_of_nat 34) EmptyString.

(** [str(z)] on an [int] *)
Definition str_int (z : Z) : string := pretty z.

End Py.

(** ** Exceptions *)

(** The classes of [Exception] the script raises or tells apart in an
    [except] clause.  [SystemExit] is not among them: it does not derive
    from [Exception] and is an outcome of its own. *)
Inductive exn_class :=
  | ValueError
  | JSONDecodeError
  | RequestException
  | ArgumentTypeError
  | EOFError
  | FileNotFoundError
  | EnvironmentError
  | RuntimeError
  | CalledProcessError
  | OtherException (name : string).

Record exn := Exn { exn_cls : exn_class; exn_msg : string }.

(** [isinstance(e, ValueError)]: [json.JSONDecodeError] derives from
    [ValueError]. *)
Definition is_ValueError (e : exn) : bool :=
  match exn_cls e with
  | ValueError | JSONDecodeError => true
  | _ => false
  end.

Definition is_RequestException (e : exn) : bool :=
  match exn_cls e with RequestException => true | _ => false end.

Definition is_JSONDecodeError (e : exn) : bool :=
  match exn_cls e with JSONDecodeError => true | _ => false end.

(** What a call into a library or into [core] does: it returns a value or
    raises an [Exception]. *)
Inductive result (A : Type) :=
  | Ok (a : A)
  | Raised (e : exn).
Arguments Ok {A} a.
Arguments Raised {A} e.

(** ** Goal truncation *)

Definition truncate_overall_goal (overall_goal : string) (max_length : Z) : string :=
  Py.slice_to overall_goal max_length.


(** ** The world the script runs in *)

Inductive level := INFO | ERROR.

(** A parsed [config.ini]: section, then option, then value. *)
Abbreviation config := (gmap string (gmap string string)).

(** How a piece of the script ends: it returns, an [Exception] propagates
    out of it, or [sys.exit(code)] was called ([SystemExit] is not caught by
    [except Exception]). *)
Inductive outcome (A : Type) :=
  | Ret (a : A)
  | Raise (e : exn)
  | Exit (code : Z).
Arguments Ret {A} a.
Arguments Raise {A} e.
Arguments Exit {A} code.

Section World.

(** [E] is the state of everything outside the script: the file system, the
    network, the model backend and the state held by [core]'s objects.
    [Ranked] is the type of the ranking that [rank_crews] hands back. *)
Context {E Ranked : Type}.

(** The calls the script makes, with their arguments. *)
Inductive call :=
  | CSetupLogging
  | CSubprocessRun (argv : list string)
  | CCheckLatestVersion
  | CVersionNewer (latest current : string)
  | CInstallDependencies
  | CUpgradeAutocrew (latest_version : string)
  | CParseConfigParameters (config_params : list string)
  | CUpdateConfigFile (config_dict : config) (write_to_file : bool)
  | CNewAutoCrew
  | CLogConfig
  | CInput (prompt : string)
  | CReadConfig (filename : string)
  | CGetInt (section option : string)
  | CGenerateScripts (goal : string) (num_scripts : Z)
  | CGetExistingScripts (goal : string)
  | CRankCrews (csv_file_paths : list string) (overall_goal : option string) (verbose : bool)
  | CSaveRankingOutput (ranked_crews : Ranked) (goal : string).

(** What a call handed back, as far as the script looks at it. *)
Inductive reply :=
  | RNone
  | RStr (s : string)
  | RInt (z : Z)
  | RBool (b : bool)
  | RPaths (paths : list string)
  | RRanking (ranked_crews : Ranked) (overall_summary : string)
  | RConfig (c : config).

Record event := Event { ev_call : call; ev_result : result reply }.

Record world := World {
  stdin : list string;              (* the lines still to be read by [input()] *)
  stdout : list string;             (* what [print] wrote, oldest first *)
  log : list (level * string);      (* the records handed to [logging] *)
  trace : list event;               (* the calls made so far, oldest first *)
  env : E
}.

Definition M (A : Type) : Type := world → outcome A * world.

Definition ret {A} (a : A) : M A := fun w => (Ret a, w).

Definition bind {A B} (m : M A) (k : A → M B) : M B :=
  fun w =>
    match m w with
    | (Ret a, w') => k a w'
    | (Raise e, w') => (Raise e, w')
    | (Exit c, w') => (Exit c, w')
    end.

(** [raise e] *)
Definition raise {A} (e : exn) : M A := fun w => (Raise e, w).

(** [sys.exit(code)] *)
Definition sys_exit {A} (code : Z) : M A := fun w => (Exit code, w).

(** [try: body  except Exception as e: handler(e)] *)
Definition try_except {A} (body : M A) (handler : exn → M A) : M A :=
  fun w =>
    match body w with
    | (Raise e, w') => handler e w'
    | r => r
    end.

(** [try: body  except C as e: handler(e)] for the class picked by [catches] *)
Definition try_except_if {A} (catches : exn → bool) (body : M A) (handler : exn → M A) : M A :=
  fun w =>
    match body w with
    | (Raise e, w') => if catches e then handler e w' else (Raise e, w')
    | r => r
    end.

Definition add_log (l : level) (msg : string) (w : world) : world :=
  World (stdin w) (stdout w) (log w ++ [(l, msg)]) (trace w) (env w).

Definition add_event (ev : event) (w : world) : world :=
  World (stdin w) (stdout w) (log w) (trace w ++ [ev]) (env w).

Definition set_env (e : E) (w : world) : world :=
  World (stdin w) (stdout w) (log w) (trace w) e.

Definition logging_info (msg : string) : M unit :=
  fun w => (Ret tt, add_log INFO msg w).

Definition logging_error (msg : string) : M unit :=
  fun w => (Ret tt, add_log ERROR msg w).

(** [logging.exception(msg)]: a record at level ERROR (with the traceback). *)
Definition logging_exception (msg : string) : M unit :=
  fun w => (Ret tt, add_log ERROR msg w).

Definition print (msg : string) : M unit :=
  fun w => (Ret tt, World (stdin w) (stdout w ++ [msg]) (log w) (trace w) (env w)).

Definition eof_error : exn := Exn EOFError "EOF when reading a line".

(** [input(prompt)]: the next line of the terminal, [EOFError] at its end. *)
Definition input (prompt : string) : M string :=
  fun w =>
    let out := if Py.truthy_str prompt then stdout w ++ [prompt] else stdout w in
    match stdin w with
    | line :: rest =>
        (Ret line,
         World rest out (log w)
               (trace w ++ [Event (CInput prompt) (Ok (RStr line))]) (env w))
    | [] =>
        (Raise eof_error,
         World [] out (log w)
               (trace w ++ [Event (CInput prompt) (Raised eof_error)]) (env w))
    end.

(** A call into the outside: [op] acts on the outside state; the call and
    what it handed back are recorded. *)
Definition extern {A} (c : call) (summary : A → reply) (op : E → result A * E) : M A :=
  fun w =>
    match op (env w) with
    | (Ok a, e') => (Ret a, add_event (Event c (Ok (summary a))) (set_env e' w))
    | (Raised x, e') => (Raise x, add_event (Event c (Raised x)) (set_env e' w))
    end.

(** A call inside a function that handles every exception of its own: the
    call is not a step of the main flow and is not recorded. *)
Definition inner {A} (op : E → result A * E) : M A :=
  fun w =>
    match op (env w) with
    | (Ok a, e') => (Ret a, set_env e' w)
    | (Raised x, e') => (Raise x, set_env e' w)
    end.

(** The record of a call that returned. *)
Definition returned (c : call) (r : reply) : M unit :=
  fun w => (Ret tt, add_event (Event c (Ok r)) w).

(** A call of a function without effects, which returns or raises. *)
Definition pure_call {A} (c : call) (summary : A → reply) (r : result A) : M A :=
  extern c summary (fun e => (r, e)).

(** [for x in l: body(x)] *)
Fixpoint for_each {A} (l : list A) (body : A → M unit) : M unit :=
  match l with
  | [] => ret tt
  | x :: l' => bind (body x) (fun _ => for_each l' body)
  end.

End World.

Arguments call : clear implicits.
Arguments reply : clear implicits.
Arguments event : clear implicits.
Arguments world : clear implicits.
Arguments M : clear implicits.

Declare Scope py_scope.
Delimit Scope py_scope with py.
Notation "x <- m ;; k" := (bind m (fun x => k))
  (at level 100, m at next level, right associativity) : py_scope.
Notation "m ;; k" := (bind m (fun _ => k))
  (at level 100, right associativity) : py_scope.

(** ** The script *)

Definition AUTOCREW_VERSION : string := "3.1.0".

(** The namespace [argparse] hands back.  [-c] appends, so [arg_c] is [None]
    or a list; [-m] and the positional goal are [None] when absent. *)
Record Args := mkArgs {
  arg_a : bool;
  arg_c : option (list string);
  arg_d : bool;
  arg_h : bool;
  arg_m : option Z;
  arg_r : bool;
  arg_u : bool;
  arg_v : bool;
  arg_w : bool;
  overall_goal : option string
}.

Definition set_overall_goal (args : Args) (goal : string) : Args :=
  mkArgs (arg_a args) (arg_c args) (arg_d args) (arg_h args) (arg_m args)
         (arg_r args) (arg_u args) (arg_v args) (arg_w args) (Some goal).

Section Script.

Context {E Ranked : Type}.

Local Open Scope py_scope.

Local Abbreviation M := (M E Ranked).

(** The object [AutoCrew()] builds (module [core]): its methods act on the
    outside state. *)
Record AutoCrew := mkAutoCrew {
  generate_scripts : string → Z → E → result (list string) * E;
  get_existing_scripts : string → E → result (list string) * E;
  rank_crews : list string → option string → bool → E → result (Ranked * string) * E;
  save_ranking_output : Ranked → string → E → result unit * E;
  log_config_with_redacted_api_keys : E → result unit * E
}.

(** The libraries and modules the script calls. *)
Record Externals := mkExternals {
  (* [logging_config.setup_logging()] *)
  setup_logging : E → result unit * E;
  (* [subprocess.run(argv)], handing back the return code *)
  subprocess_run : list string → E → result Z * E;
  (* [sys.executable] *)
  sys_executable : string;
  (* [requests.get(...)], [raise_for_status()], [json()] and ['tag_name'] *)
  fetch_latest_tag : E → result string * E;
  (* [version.parse(x) > version.parse(y)] *)
  version_gt : string → string → result bool;
  (* the text of [parser.print_help()] *)
  help_text : string;
  (* the body of [install_dependencies]: [requirements.txt] and [pip] *)
  install_requirements : E → result unit * E;
  (* the file work of [upgrade_autocrew]: backup, clone, copy, config merge *)
  upgrade_files : string → E → result unit * E;
  (* the body of [update_config_file_with_params]: [configparser] and the file *)
  write_config_params : config → bool → E → result unit * E;
  (* [AutoCrew()] *)
  new_AutoCrew : E → result AutoCrew * E;
  (* [configparser.ConfigParser().read(filename)] *)
  read_config : string → E → result config * E
}.

Context (X : Externals).

Definition int_of_str (s : string) : M Z :=
  match Py.int s with
  | Some z => ret z
  | None => raise (Exn ValueError ("invalid literal for int() with base 10: '" +:+ s +:+ "'"))
  end.

(** The loop of [positive_int]:
    [while True: try: return int(input()) except ValueError: print(...)].
    It runs along the lines of the terminal, which [input] consumes. *)
Fixpoint input_int_loop (lines : list string) : M Z :=
  match lines with
  | [] => line <- input EmptyString ;; int_of_str line
  | _ :: rest =>
      try_except_if is_ValueError
        (line <- input EmptyString ;; int_of_str line)
        (fun _ => print "Invalid input. Please enter a valid number." ;;
                  input_int_loop rest)
  end.

Definition positive_int (value : string) : M Z :=
  try_except_if is_ValueError
    (ivalue <- int_of_str value ;;
     if ivalue <=? 0
     then raise (Exn ArgumentTypeError (value +:+ " is an invalid positive int value"))
     else ret ivalue)
    (fun _ =>
       print "Please specify the total number of alternative scripts to generate: " ;;
       fun w => input_int_loop (stdin w) w).

Definition log_command_line_arguments (argv : list string) : M unit :=
  logging_info ("Command-line arguments: " +:+ Py.join " " (tail argv)).

Definition install_dependencies : M unit :=
  extern CInstallDependencies (fun _ => RNone) (install_requirements X).

(** [check_latest_version] handles every exception of the calls it makes;
    the main flow sees it as one call, which returns. *)
Definition check_latest_version : M (string * string) :=
  version <-
    try_except
      (latest_version <- inner (fetch_latest_tag X) ;;
       newer <- inner (fun e => (version_gt X latest_version AUTOCREW_VERSION, e)) ;;
       if newer : bool
       then ret (latest_version,
                 "An updated version of AutoCrew is available: " +:+ latest_version)
       else ret (AUTOCREW_VERSION, "You are running the latest version of AutoCrew."))
      (fun e =>
         if is_RequestException e then
           ret (AUTOCREW_VERSION,
                "Error while checking for the latest version (HTTP error): " +:+ exn_msg e)
         else if is_JSONDecodeError e then
           ret (AUTOCREW_VERSION,
                "Error while checking for the latest version (Invalid JSON response).")
         else
           ret (AUTOCREW_VERSION,
                "Error while checking for the latest version: " +:+ exn_msg e)) ;;
  returned CCheckLatestVersion (RStr (fst version)) ;;
  ret version.

Definition upgrade_autocrew (latest_version : string) : M unit :=
  extern (CUpgradeAutocrew latest_version) (fun _ => RNone) (upgrade_files X latest_version) ;;
  logging_info "Upgrade process completed." ;;
  print ("Upgrade successful. AutoCrew has been updated from version " +:+ AUTOCREW_VERSION
         +:+ " to version " +:+ latest_version +:+ ".") ;;
  sys_exit 0.

Definition invalid_config_parameter (param : string) : exn :=
  Exn ArgumentTypeError ("Invalid config parameter format: " +:+ param).

(** The loop of [parse_config_parameters], over the dictionary built so far. *)
Fixpoint parse_config_parameters_go (config_params : list string) (config_dict : config)
  : result config :=
  match config_params with
  | [] => Ok config_dict
  | param :: rest =>
      match Py.split1 "." param with
      | None => Raised (invalid_config_parameter param)
      | Some (section, key_value) =>
          match Py.split1 "=" key_value with
          | None => Raised (invalid_config_parameter param)
          | Some (key, value) =>
              let section := Py.strip section in
              let inner := default ∅ (config_dict !! section) in
              parse_config_parameters_go rest
                (<[section := <[Py.strip key := Py.strip value]> inner]> config_dict)
          end
      end
  end.

Definition parse_config_parameters (config_params : list string) : result config :=
  parse_config_parameters_go config_params ∅.

Definition update_config_file_with_params (config_dict : config) (write_to_file : bool) : M unit :=
  extern (CUpdateConfigFile config_dict write_to_file) (fun _ => RNone)
         (write_config_params X config_dict write_to_file).

Definition handle_install_dependencies (args : Args) : M unit :=
  if arg_d args then install_dependencies ;; sys_exit 0 else ret tt.

Definition handle_help (args : Args) : M unit :=
  if arg_h args then print (help_text X) ;; sys_exit 0 else ret tt.

Definition handle_upgrade (args : Args) (latest_version : string) : M unit :=
  if arg_u args then
    newer <- pure_call (CVersionNewer latest_version AUTOCREW_VERSION) RBool
               (version_gt X latest_version AUTOCREW_VERSION) ;;
    (if newer : bool
     then upgrade_autocrew latest_version
     else logging_info "No new version available or you are already running the latest version.") ;;
    sys_exit 0
  else ret tt.

Definition handle_config_update (args : Args) : M unit :=
  match arg_c args with
  | Some ((_ :: _) as params) =>
      config_dict <- pure_call (CParseConfigParameters params) RConfig
                       (parse_config_parameters params) ;;
      update_config_file_with_params config_dict (arg_w args)
  | _ => ret tt
  end.

Definition num_scripts_to_generate (args : Args) : Z :=
  if negb (Py.truthy_opt Py.truthy_int (arg_m args)) then 1
  else default 1 (arg_m args).

Definition no_script_generation_params (args : Args) : bool :=
  Py.any [Py.truthy_opt Py.truthy_list (arg_c args); arg_h args; arg_d args; arg_u args].

Definition generate_and_run_scripts (args : Args) (autocrew : AutoCrew)
    (truncated_overall_goal : string) : M (list string) :=
  let csv_file_paths : list string := [] in
  let num_scripts_to_generate := num_scripts_to_generate args in
  if negb (no_script_generation_params args) then
    try_except
      (logging_info ("Generating " +:+ Py.str_int num_scripts_to_generate
                     +:+ " alternative scripts...") ;;
       csv_file_paths <- extern (CGenerateScripts truncated_overall_goal num_scripts_to_generate)
                           RPaths
                           (generate_scripts autocrew truncated_overall_goal
                                             num_scripts_to_generate) ;;
       (if arg_a args then
          for_each csv_file_paths (fun path =>
            let script_path := Py.replace ".csv" ".py" path in
            _ <- extern (CSubprocessRun [sys_executable X; script_path]) RInt
                   (subprocess_run X [sys_executable X; script_path]) ;;
            ret tt)
        else ret tt) ;;
       ret csv_file_paths)
      (fun e =>
         logging_exception "An error occurred during script generation." ;;
         sys_exit 1)
  else ret csv_file_paths.

Definition handle_ranking (args : Args) (autocrew : AutoCrew)
    (truncated_overall_goal : string) (csv_file_paths : list string) : M unit :=
  if arg_r args then
    try_except
      (logging_info "Ranking process initiated." ;;
       csv_file_paths <-
         (if negb (Py.truthy_list csv_file_paths)
          then extern (CGetExistingScripts truncated_overall_goal) RPaths
                      (get_existing_scripts autocrew truncated_overall_goal)
          else ret csv_file_paths) ;;
       (if negb (Py.truthy_list csv_file_paths)
        then logging_error "No existing scripts found to rank." ;; sys_exit 1
        else ret tt) ;;
       ranking <- extern (CRankCrews csv_file_paths (overall_goal args) (arg_v args))
                    (fun p => RRanking (fst p) (snd p))
                    (rank_crews autocrew csv_file_paths (overall_goal args) (arg_v args)) ;;
       let '(ranked_crews, overall_summary) := ranking in
       logging_info ("Ranking prompt:" +:+ Py.nl +:+ overall_summary +:+ Py.nl) ;;
       extern (CSaveRankingOutput ranked_crews truncated_overall_goal) (fun _ => RNone)
              (save_ranking_output autocrew ranked_crews truncated_overall_goal) ;;
       logging_info "Ranking process completed.")
      (fun e =>
         logging_exception "An error occurred during script ranking." ;;
         sys_exit 1)
  else ret tt.

Definition generate_startup_message (latest_version version_message : string) : string :=
  Py.nl +:+ "Welcome to AutoCrew!" +:+ Py.nl
  +:+ "Use the -? or -h command line options to display help information." +:+ Py.nl
  +:+ "Settings can be modified within " +:+ Py.dq +:+ "config.ini" +:+ Py.dq
  +:+ ". Scripts are saved in the " +:+ Py.dq +:+ "scripts" +:+ Py.dq +:+ " subdirectory." +:+ Py.nl
  +:+ "If you experience any errors, please create an issue on Github and attach "
  +:+ Py.dq +:+ "autocrew.log" +:+ Py.dq +:+ ":" +:+ Py.nl
  +:+ "https://github.com/yanniedog/autocrew/issues/new" +:+ Py.nl
  +:+ Py.nl +:+ "AutoCrew version: " +:+ AUTOCREW_VERSION +:+ Py.nl
  +:+ version_message +:+ Py.nl.

(** [config.getint(section, option, fallback=fallback)]: the fallback stands
    in for a missing section or option only; a value that is no integer
    raises [ValueError]. *)
Definition getint (cfg : config) (section option : string) (fallback : Z) : result Z :=
  match cfg !! section ≫= (.!! option) with
  | None => Ok fallback
  | Some value =>
      match Py.int value with
      | Some z => Ok z
      | None => Raised (Exn ValueError ("invalid literal for int() with base 10: '" +:+ value +:+ "'"))
      end
  end.

(** [main()], from the value [parse_arguments()] returned on. *)
Definition main (argv : list string) (args : Args) : M unit :=
  extern CSetupLogging (fun _ => RNone) (setup_logging X) ;;
  logging_info "Starting AutoCrew script" ;;
  if decide (length argv = 1%nat) then
    print (Py.nl +:+ "Welcome to AutoCrew!" +:+ Py.nl +:+ "Let's get started." +:+ Py.nl) ;;
    _ <- extern (CSubprocessRun ["python3"; "welcome.py"]) RInt
           (subprocess_run X ["python3"; "welcome.py"]) ;;
    sys_exit 0
  else
    log_command_line_arguments argv ;;
    try_except
      (version <- check_latest_version ;;
       let '(latest_version, version_message) := version in
       let startup_message := generate_startup_message latest_version version_message in
       logging_info startup_message ;;
       handle_help args ;;
       handle_install_dependencies args ;;
       handle_upgrade args latest_version ;;
       handle_config_update args ;;
       autocrew <- extern CNewAutoCrew (fun _ => RNone) (new_AutoCrew X) ;;
       extern CLogConfig (fun _ => RNone) (log_config_with_redacted_api_keys autocrew) ;;
       args <- (if negb (Py.truthy_opt Py.truthy_str (overall_goal args))
                then goal <- input "Please set the overall goal for your crew: " ;;
                     ret (set_overall_goal args goal)
                else ret args) ;;
       config <- extern (CReadConfig "config.ini") RConfig (read_config X "config.ini") ;;
       max_length <- pure_call (CGetInt "CREWAI_SCRIPTS" "overall_goal_truncation_for_filenames")
                       RInt
                       (getint config "CREWAI_SCRIPTS" "overall_goal_truncation_for_filenames" 40) ;;
       let truncated_overall_goal :=
         truncate_overall_goal (default EmptyString (overall_goal args)) max_length in
       csv_file_paths <- generate_and_run_scripts args autocrew truncated_overall_goal ;;
       handle_ranking args autocrew truncated_overall_goal csv_file_paths)
      (fun e =>
         logging_exception ("An unexpected error occurred: " +:+ exn_msg e) ;;
         sys_exit 1) ;;
    logging_info "AutoCrew script finished successfully" ;;
    sys_exit 0.

(** The [if __name__ == '__main__'] block. *)
Definition script (argv : list string) (args : Args) : M unit :=
  try_except
    (main argv args)
    (fun e =>
       logging_exception ("An unhandled exception occurred: " +:+ exn_msg e) ;;
       sys_exit 1).

End Script.

(** ** The ranking evaluator's parsing policy *)

(** One entry of a ranking: a candidate's sequence index and whether the
    evaluator's response never mentioned it. *)
Record ranked_entry := RankedEntry { entry_index : nat; entry_unranked : bool }.

(** The indices of [l] in order of first mention; [seen] holds the indices
    met so far. *)
Fixpoint first_mentions (seen l : list nat) : list nat :=
  match l with
  | [] => []
  | i :: l' =>
      if decide (i ∈ seen) then first_mentions seen l'
      else i :: first_mentions (i :: seen) l'
  end.

Section Parsing.

(** The index references recognised in a response, in order of appearance. *)
Context (scan : string → list nat).

(** Modelled from the spec: the parsing step of [rank_crews] (module [core],
    not among the sources), section 4.4.  The response is scanned for index
    references in order of first mention, the first mention ranking highest;
    a candidate index never mentioned is appended at the end, in generation
    order, flagged as unranked; a response without any recognisable index of
    the candidate set is unparseable ([None]). *)
Definition mentioned (candidates : list nat) (response : string) : list nat :=
  first_mentions [] (filter (λ i, i ∈ candidates) (scan response)).

Definition never_mentioned (candidates : list nat) (response : string) : list nat :=
  filter (λ i, i ∉ mentioned candidates response) candidates.

Definition parse_ranking (candidates : list nat) (response : string)
  : option (list ranked_entry) :=
  match mentioned candidates response with
  | [] => None
  | ranked =>
      Some (((λ i, RankedEntry i false) <$> ranked)
            ++ ((λ i, RankedEntry i true) <$> never_mentioned candidates response))
  end.

End Parsing.

(** A recogniser of index references: the maximal runs of decimal digits.
    [cur] is the value of the run being read, if any. *)
Fixpoint digit_runs_go (cur : option nat) (s : string) : list nat :=
  match s with
  | EmptyString => option_list cur
  | String c s' =>
      match Ascii.is_nat c with
      | Some d => digit_runs_go (Some (10 * default 0%nat cur + d)%nat) s'
      | None => option_list cur ++ digit_runs_go None s'
      end
  end.

Definition digit_runs : string → list nat := digit_runs_go None.

(** ** A reference model of [core.AutoCrew] *)

Module Core.

(** Modelled from the spec: the error taxonomy of section 7 (module [core]
    is not among the sources). *)
Definition BackendUnavailable : exn := Exn (OtherException "BackendUnavailable") "backend unavailable".
Definition BackendError (msg : string) : exn := Exn (OtherException "BackendError") msg.
Definition AuthError : exn := Exn (OtherException "AuthError") "missing or invalid credential".
Definition StorageError : exn := Exn (OtherException "StorageError") "storage failure".
Definition NotFound (location : string) : exn := Exn (OtherException "NotFound") location.
Definition GenerationFailed (failed : list nat) : exn :=
  Exn (OtherException "GenerationFailed")
      ("failed indices: " +:+ Py.join ", " (pretty <$> failed)).
Definition RankingUnparseable (raw : string) : exn :=
  Exn (OtherException "RankingUnparseable") raw.

Definition is_class (name : string) (e : exn) : bool :=
  match exn_cls e with
  | OtherException n => bool_decide (n = name)
  | _ => false
  end.

(** A persisted candidate: its key (goal identifier and sequence index) and
    its content. *)
Record artifact := Artifact { art_goal : string; art_index : nat; art_content : string }.

(** A persisted ranking report. *)
Record report := Report { report_goal : string; report_ranking : list ranked_entry }.

(** The world outside the script: the candidate store, the reports written,
    the answers the backend gives to the coming calls, and whether the disk
    accepts writes. *)
Record outside := Outside {
  store : list artifact;
  reports : list report;
  backend : list (result string);
  disk_ok : bool
}.

(** Modelled from the spec: the storage location of a candidate, derived from
    the goal identifier and the index (section 3). *)
Definition location (goal_id : string) (index : nat) : string :=
  "scripts/" +:+ goal_id +:+ "-" +:+ pretty index +:+ ".csv".

Definition art_location (a : artifact) : string := location (art_goal a) (art_index a).

Definition same_key (goal_id : string) (index : nat) (a : artifact) : bool :=
  bool_decide (art_goal a = goal_id) && bool_decide (art_index a = index).

(** Modelled from the spec: the Candidate Store of section 4.1. *)
Definition put (goal_id : string) (index : nat) (content : string) (o : outside)
  : result string * outside :=
  if disk_ok o then
    (Ok (location goal_id index),
     Outside (Artifact goal_id index content
                :: filter (λ a, negb (same_key goal_id index a)) (store o))
             (reports o) (backend o) (disk_ok o))
  else (Raised StorageError, o).

Definition list_ (goal_id : string) (o : outside) : list (nat * string) :=
  (λ i, (i, location goal_id i))
    <$> merge_sort Nat.le
          (art_index <$> filter (λ a, bool_decide (art_goal a = goal_id)) (store o)).

Definition find_artifact (loc : string) (o : outside) : option artifact :=
  List.find (λ a, bool_decide (art_location a = loc)) (store o).

Definition get (loc : string) (o : outside) : result string :=
  match find_artifact loc o with
  | Some a => Ok (art_content a)
  | None => Raised (NotFound loc)
  end.

(** Modelled from the spec: the Generation Backend Client of section 4.2, one
    blocking call; the backend's answers are taken from [backend] in turn. *)
Definition generate (goal instructions : string) (o : outside) : result string * outside :=
  match backend o with
  | r :: rest => (r, Outside (store o) (reports o) rest (disk_ok o))
  | [] => (Raised BackendUnavailable, o)
  end.

(** A backend call under the fixed retry policy: [BackendUnavailable] is
    retried once. *)
Definition generate_with_retry (goal instructions : string) (o : outside)
  : result string * outside :=
  match generate goal instructions o with
  | (Raised e, o') =>
      if is_class "BackendUnavailable" e then generate goal instructions o'
      else (Raised e, o')
  | r => r
  end.

(** Modelled from the spec: the Candidate Generator of section 4.3.  [done]
    and [failed] collect the locations persisted and the indices that failed. *)
Fixpoint generate_indices (goal : string) (indices : list nat)
    (done : list string) (failed : list nat) (o : outside)
  : result (list string * list nat) * outside :=
  match indices with
  | [] => (Ok (done, failed), o)
  | i :: rest =>
      match generate_with_retry goal "generate" o with
      | (Ok content, o1) =>
          match put goal i content o1 with
          | (Ok loc, o2) => generate_indices goal rest (done ++ [loc]) failed o2
          | (Raised e, o2) => (Raised e, o2)
          end
      | (Raised e, o1) =>
          if is_class "AuthError" e then (Raised e, o1)
          else generate_indices goal rest done (failed ++ [i]) o1
      end
  end.

Definition generate_candidates (goal : string) (count : Z) (o : outside)
  : result (list string) * outside :=
  match generate_indices goal (seq 1 (Z.to_nat count)) [] [] o with
  | (Ok ([], failed), o') => (Raised (GenerationFailed failed), o')
  | (Ok (done, _), o') => (Ok done, o')
  | (Raised e, o') => (Raised e, o')
  end.

(** Step (1) of ranking: load every candidate, with its index. *)
Fixpoint load (candidate_set : list string) (o : outside) : result (list (nat * string)) :=
  match candidate_set with
  | [] => Ok []
  | loc :: rest =>
      match find_artifact loc o with
      | None => Raised (NotFound loc)
      | Some a =>
          match load rest o with
          | Ok l => Ok ((art_index a, art_content a) :: l)
          | Raised e => Raised e
          end
      end
  end.

(** Step (2): one request embedding the goal and every candidate, labelled
    by its index. *)
Definition evaluation_prompt (goal : option string) (loaded : list (nat * string)) : string :=
  "Goal: " +:+ default EmptyString goal +:+ Py.nl
  +:+ Py.join Py.nl ((λ p, "Candidate " +:+ pretty (fst p) +:+ ": " +:+ snd p) <$> loaded).

(** Modelled from the spec: the Ranking Evaluator of section 4.4. *)
Definition rank (candidate_set : list string) (goal : option string) (verbose : bool)
    (o : outside) : result (list ranked_entry * string) * outside :=
  match load candidate_set o with
  | Raised e => (Raised e, o)
  | Ok loaded =>
      let prompt := evaluation_prompt goal loaded in
      match generate_with_retry (default EmptyString goal) prompt o with
      | (Raised e, o') => (Raised e, o')
      | (Ok response, o') =>
          match parse_ranking digit_runs (fst <$> loaded) response with
          | Some ranking => (Ok (ranking, prompt), o')
          | None => (Raised (RankingUnparseable response), o')
          end
      end
  end.

(** Modelled from the spec: the Ranking Report Writer of section 4.5, with
    the arguments the script passes to it (the ranking and the goal
    identifier). *)
Definition save (ranking : list ranked_entry) (goal_id : string) (o : outside)
  : result unit * outside :=
  if disk_ok o then
    (Ok tt, Outside (store o) (reports o ++ [Report goal_id ranking]) (backend o) (disk_ok o))
  else (Raised StorageError, o).

(** The object the script drives. *)
Definition autocrew : AutoCrew (E := outside) (Ranked := list ranked_entry) :=
  mkAutoCrew
    generate_candidates
    (λ goal_id o, (Ok (snd <$> list_ goal_id o), o))
    rank
    save
    (λ o, (Ok tt, o)).

End Core.

(** ** Observations on a run *)

#[global] Instance level_eq_dec : EqDecision level.
Proof. solve_decision. Defined.

Section Observations.

Context {E Ranked : Type}.

(** A fresh run: nothing logged, no call made yet. *)
Definition start (lines : list string) (e : E) : world E Ranked :=
  World lines [] [] [] e.

Definition raised_event (ev : event Ranked) : bool :=
  match ev_result ev with Raised _ => true | Ok _ => false end.

Definition is_generation (ev : event Ranked) : bool :=
  match ev_call ev with CGenerateScripts _ _ => true | _ => false end.

Definition is_discovery (ev : event Ranked) : bool :=
  match ev_call ev with CGetExistingScripts _ => true | _ => false end.

Definition is_ranking (ev : event Ranked) : bool :=
  match ev_call ev with CRankCrews _ _ _ => true | _ => false end.

Definition is_save (ev : event Ranked) : bool :=
  match ev_call ev with CSaveRankingOutput _ _ => true | _ => false end.

Definition is_subprocess (ev : event Ranked) : bool :=
  match ev_call ev with CSubprocessRun _ => true | _ => false end.

Definition no_scripts_record : level * string :=
  (ERROR, "No existing scripts found to rank.").

(** A run has failed when a call of the main flow raised, or when ranking
    found no candidate to rank. *)
Definition failed (w : world E Ranked) : bool :=
  existsb raised_event (trace w)
  || existsb (λ r, bool_decide (r = no_scripts_record)) (log w).

(** What the exit code promises, at the end of a piece of the script that
    was started in a run that had not failed: a normal return leaves the run
    unfailed, an exception propagates from a failed run only, and the
    process exits with 0 from an unfailed run and with 1 from a failed one. *)
Definition exit_post {A} (r : outcome A * world E Ranked) : Prop :=
  match r.1 with
  | Ret _ => failed r.2 = false
  | Raise _ => failed r.2 = true
  | Exit c => (c = 0 ∧ failed r.2 = false) ∨ (c = 1 ∧ failed r.2 = true)
  end.

Definition sound {A} (m : M E Ranked A) : Prop :=
  ∀ w, failed w = false → exit_post (m w).

(** An exception handler that reports and exits with status 1. *)
Definition exits_1 {A} (h : M E Ranked A) : Prop :=
  ∀ w, ∃ w', h w = (Exit 1, w') ∧ (failed w = true → failed w' = true).

(** A piece of the script that ends by an exception or by [sys.exit] only. *)
Definition never_returns {A} (m : M E Ranked A) : Prop :=
  ∀ w a, (m w).1 ≠ Ret a.

(** The reading of the report-saving step under which it is handed the
    evaluation prompt: the prompt can be read off the arguments of the call
    to [save_ranking_output], whatever [rank_crews] returned. *)
Definition save_step_receives_prompt : Prop :=
  ∃ prompt_of : call Ranked → option string,
    ∀ (autocrew : AutoCrew (E := E) (Ranked := Ranked)) args goal paths w w'
      c ranked_crews overall_summary,
      handle_ranking args autocrew goal paths w = (Ret tt, w') →
      Event c (Ok (RRanking ranked_crews overall_summary)) ∈ trace w' →
      ∃ ev, ev ∈ trace w' ∧ is_save ev = true
            ∧ prompt_of (ev_call ev) = Some overall_summary.


(** The goal handed to the generation calls of a trace. *)
Definition generation_goals (tr : list (event Ranked)) : list string :=
  omap (λ ev, match ev_call ev with
              | CGenerateScripts goal _ => Some goal
              | _ => None
              end) tr.

Definition generation_counts (tr : list (event Ranked)) : list Z :=
  omap (λ ev, match ev_call ev with
              | CGenerateScripts _ n => Some n
              | _ => None
              end) tr.

End Observations.

(** ** Concrete runs *)

Module Run.

Import Core.

(** Libraries that always succeed, around the reference model of [core]. *)
Definition X : Externals (E := outside) (Ranked := list ranked_entry) :=
  mkExternals
    (λ o, (Ok tt, o))
    (λ _ o, (Ok 0, o))
    "python3"
    (λ o, (Ok AUTOCREW_VERSION, o))
    (λ _ _, Ok false)
    "usage: autocrew.py [-a] [-c SECTION.KEY=VALUE] [-d] [-h] [-m M] [-r] [-u] [-v] [-w] [overall_goal]"
    (λ o, (Ok tt, o))
    (λ _ o, (Ok tt, o))
    (λ _ _ o, (Ok tt, o))
    (λ o, (Ok autocrew, o))
    (λ _ o, (Ok ∅, o)).

Definition no_flags (goal : string) : Args :=
  mkArgs false None false false None false false false false (Some goal).

(** [autocrew.py -r GOAL] *)
Definition rank_only (goal : string) : Args :=
  mkArgs false None false false None true false false false (Some goal).

(** [autocrew.py -c PARAM -r GOAL] *)
Definition config_and_rank (param goal : string) : Args :=
  mkArgs false (Some [param]) false false None true false false false (Some goal).

(** [autocrew.py -m COUNT GOAL], with the value [positive_int] returned *)
Definition multiple (count : Z) (goal : string) : Args :=
  mkArgs false None false false (Some count) false false false false (Some goal).

Definition long_goal : string :=
  "Plan a product launch event for the spring collection".

(** Two candidates of an earlier run for the goal [Launch a product]. *)
Definition earlier_run : outside :=
  Outside [Artifact "Launch a product" 1 "first"; Artifact "Launch a product" 2 "second"]
          [] [Ok "third"; Ok "Best: 1"] true.

(** A backend that answers twice, and an empty candidate store. *)
Definition empty_store : outside :=
  Outside [] [] [Ok "a crew"; Ok "1"] true.

(** An [AutoCrew] whose ranking hands back a fixed prompt text. *)
Definition fixed_prompt (prompt : string) : AutoCrew (E := unit) (Ranked := unit) :=
  mkAutoCrew
    (λ _ _ e, (Ok ["crew.csv"], e))
    (λ _ e, (Ok ["crew.csv"], e))
    (λ _ _ _ e, (Ok (tt, prompt), e))
    (λ _ _ e, (Ok tt, e))
    (λ e, (Ok tt, e)).

End Run.

(** ** Further observations on the script *)

(** [c in s] for a character *)
Fixpoint occurs (c : ascii) (s : string) : bool :=
  match s with
  | EmptyString => false
  | String c' s' => bool_decide (c' = c) || occurs c s'
  end.

(** A parameter of [-c] that reads SECTION.KEY=VALUE: there is a dot, and
    an equals sign after the first dot. *)
Definition well_formed_param (param : string) : Prop :=
  ∃ section key value,
    param = section +:+ "." +:+ key +:+ "=" +:+ value
    ∧ occurs "." section = false.

(** How a piece of the script ended, without the value. *)
Inductive kind := KRet | KRaise | KExit.

Definition kind_of {A} (o : outcome A) : kind :=
  match o with Ret _ => KRet | Raise _ => KRaise | Exit _ => KExit end.

Section Flow.

Context {E Ranked : Type}.

(** From a trace that satisfies [P], the piece [m] leads to a trace that
    satisfies [Q], according to how it ends. *)
Definition tr_triple {A} (P : list (event Ranked) → Prop) (m : M E Ranked A)
    (Q : kind → list (event Ranked) → Prop) : Prop :=
  ∀ w, P (trace w) → Q (kind_of (m w).1) (trace (m w).2).

(** A family of trace properties kept by a piece of the script. *)
Definition keeps {A} (T : kind → list (event Ranked) → Prop) (m : M E Ranked A) : Prop :=
  tr_triple (T KRet) m T.

(** The call [c] may be recorded under [T], whether it returns or raises. *)
Definition call_ok (T : kind → list (event Ranked) → Prop) (c : call Ranked) : Prop :=
  ∀ tr, T KRet tr →
    (∀ r, T KRet (tr ++ [Event c (Ok r)]))
    ∧ (∀ x, T KRaise (tr ++ [Event c (Raised x)])).

(** [T] survives [sys.exit], from a normal state and from a handler. *)
Definition ends_ok (T : kind → list (event Ranked) → Prop) : Prop :=
  ∀ tr, (T KRet tr → T KExit tr) ∧ (T KRaise tr → T KExit tr).

(** None of [-h], [-d], [-u]: the run gets past the early exits. *)
Definition past_early_exits (args : Args) : bool :=
  negb (arg_h args) && negb (arg_d args) && negb (arg_u args).

Definition welcome_command : list string := ["python3"; "welcome.py"].

(** The calls a run may make, by its command line. *)
Definition allowed_call (argv : list string) (args : Args) (c : call Ranked) : bool :=
  let runs := bool_decide (length argv ≠ 1%nat) in
  match c with
  | CSetupLogging => true
  | CSubprocessRun cmd =>
      if runs then arg_a args && negb (no_script_generation_params args)
      else bool_decide (cmd = welcome_command)
  | CCheckLatestVersion => runs
  | CInstallDependencies => runs && negb (arg_h args) && arg_d args
  | CVersionNewer _ _ | CUpgradeAutocrew _ =>
      runs && negb (arg_h args) && negb (arg_d args) && arg_u args
  | CParseConfigParameters _ | CUpdateConfigFile _ _ =>
      runs && past_early_exits args && Py.truthy_opt Py.truthy_list (arg_c args)
  | CNewAutoCrew | CLogConfig | CReadConfig _ | CGetInt _ _ =>
      runs && past_early_exits args
  | CInput _ =>
      runs && past_early_exits args && negb (Py.truthy_opt Py.truthy_str (overall_goal args))
  | CGenerateScripts _ _ => runs && negb (no_script_generation_params args)
  | CGetExistingScripts _ | CRankCrews _ _ _ | CSaveRankingOutput _ _ =>
      runs && past_early_exits args && arg_r args
  end.

Definition allowed_calls (argv : list string) (args : Args)
  : kind → list (event Ranked) → Prop :=
  λ _ tr, Forall (λ ev, allowed_call argv args (ev_call ev) = true) tr.

(** No call raised, except possibly the last one made. *)
Definition stops_at_failure : kind → list (event Ranked) → Prop :=
  λ κ tr,
    match κ with
    | KRet => Forall (λ ev, raised_event ev = false) tr
    | _ => Forall (λ ev, raised_event ev = false) (removelast tr)
    end.

(** The place of a call in the main flow. *)
Definition phase (c : call Ranked) : nat :=
  match c with
  | CSetupLogging => 0
  | CCheckLatestVersion => 1
  | CInstallDependencies => 2
  | CVersionNewer _ _ => 3
  | CUpgradeAutocrew _ => 4
  | CParseConfigParameters _ => 5
  | CUpdateConfigFile _ _ => 6
  | CNewAutoCrew => 7
  | CLogConfig => 8
  | CInput _ => 9
  | CReadConfig _ => 10
  | CGetInt _ _ => 11
  | CGenerateScripts _ _ => 12
  | CSubprocessRun _ => 13
  | CGetExistingScripts _ => 14
  | CRankCrews _ _ _ => 15
  | CSaveRankingOutput _ _ => 16
  end.

(** The least phase the next call may have after the event [ev]: a later
    one, or the same one when [ev] ran a script. *)
Definition phase_after (ev : event Ranked) : nat :=
  if is_subprocess ev then phase (ev_call ev) else S (phase (ev_call ev)).

(** The calls of [tr] come in the order of the main flow, from phase [n]
    on: each call at most once, the scripts run under [-a] apart. *)
Fixpoint in_order_from (n : nat) (tr : list (event Ranked)) : bool :=
  match tr with
  | [] => true
  | ev :: tr' => (n <=? phase (ev_call ev))%nat && in_order_from (phase_after ev) tr'
  end.

Fixpoint next_phase (n : nat) (tr : list (event Ranked)) : nat :=
  match tr with
  | [] => n
  | ev :: tr' => next_phase (phase_after ev) tr'
  end.

(** The trace is in order and its calls are before phase [k]. *)
Definition before_phase (k : nat) (tr : list (event Ranked)) : Prop :=
  in_order_from 0 tr = true ∧ (next_phase 0 tr ≤ k)%nat.

(** Where the trace stands after a piece of the script that, when it
    returns, leaves the calls before phase [k]. *)
Definition phase_post (k : nat) : kind → list (event Ranked) → Prop :=
  λ κ tr,
    match κ with
    | KRet => before_phase k tr
    | _ => before_phase 17 tr
    end.

(** The calls into [core] that carry a goal. *)
Definition core_call (c : call Ranked) : bool :=
  match c with
  | CGenerateScripts _ _ | CGetExistingScripts _
  | CRankCrews _ _ _ | CSaveRankingOutput _ _ => true
  | _ => false
  end.

Definition no_core (tr : list (event Ranked)) : Prop :=
  Forall (λ ev, core_call (ev_call ev) = false) tr.

(** The event [ev], if it is a call into [core], carries the identifier
    [id] (generation, discovery, report saving) or the full goal and the
    verbosity (ranking). *)
Definition uses_identifier (id : string) (full : option string) (verbose : bool)
    (ev : event Ranked) : Prop :=
  match ev_call ev with
  | CGenerateScripts goal _ | CGetExistingScripts goal | CSaveRankingOutput _ goal =>
      goal = id
  | CRankCrews _ goal v => goal = full ∧ v = verbose
  | _ => True
  end.

Definition no_core_family : kind → list (event Ranked) → Prop :=
  λ _ tr, no_core tr.

Definition uses_family (id : string) (full : option string) (verbose : bool)
  : kind → list (event Ranked) → Prop :=
  λ _ tr, Forall (uses_identifier id full verbose) tr.

(** [full] is the goal of the run: the goal of the command line when that
    is given and not empty, and otherwise the line that [input] handed back
    at the prompt for the goal. *)
Definition goal_of_run (args : Args) (tr : list (event Ranked)) (full : string) : Prop :=
  if Py.truthy_opt Py.truthy_str (overall_goal args)
  then overall_goal args = Some full
  else Event (CInput "Please set the overall goal for your crew: ") (Ok (RStr full)) ∈ tr.

(** [max_length] is the configured length of the run: what [getint] handed
    back for the option [overall_goal_truncation_for_filenames] of section
    [CREWAI_SCRIPTS], on the configuration read from [config.ini]. *)
Definition configured_length (tr : list (event Ranked)) (max_length : Z) : Prop :=
  ∃ cfg,
    Event (CReadConfig "config.ini") (Ok (RConfig cfg)) ∈ tr
    ∧ getint cfg "CREWAI_SCRIPTS" "overall_goal_truncation_for_filenames" 40 = Ok max_length
    ∧ Event (CGetInt "CREWAI_SCRIPTS" "overall_goal_truncation_for_filenames")
            (Ok (RInt max_length)) ∈ tr.

(** The calls into [core] of the trace all carry the identifier of the
    run: the goal of the run truncated to the configured length, and for
    ranking that goal in full. *)
Definition identified (args : Args) (full : string) (max_length : Z)
    (tr : list (event Ranked)) : Prop :=
  goal_of_run args tr full
  ∧ configured_length tr max_length
  ∧ Forall (uses_identifier (truncate_overall_goal full max_length) (Some full) (arg_v args)) tr.

(** A run with one identifier: it makes no call into [core], or its goal
    and its configured length are on the trace and every call into [core]
    carries the identifier made of them. *)
Definition one_identifier (args : Args) (tr : list (event Ranked)) : Prop :=
  no_core tr ∨ ∃ full max_length, identified args full max_length tr.

Definition one_identifier_family (args : Args) : kind → list (event Ranked) → Prop :=
  λ _ tr, one_identifier args tr.

(** The commands run by [subprocess.run] in a trace. *)
Definition commands (tr : list (event Ranked)) : list (list string) :=
  omap (λ ev, match ev_call ev with
              | CSubprocessRun cmd => Some cmd
              | _ => None
              end) tr.

End Flow.

(** Libraries as in [Run.X], without a network: the version check cannot
    reach the release page. *)
Definition offline : Externals (E := Core.outside) (Ranked := list ranked_entry) :=
  mkExternals
    (setup_logging Run.X)
    (subprocess_run Run.X)
    (sys_executable Run.X)
    (λ o, (Raised (Exn RequestException "connection refused"), o))
    (version_gt Run.X)
    (help_text Run.X)
    (install_requirements Run.X)
    (upgrade_files Run.X)
    (write_config_params Run.X)
    (new_AutoCrew Run.X)
    (read_config Run.X).

(** [autocrew.py -u] *)
Definition upgrade_only : Args :=
  mkArgs false None false false None false true false false None.

(** [autocrew.py -h -d -u -r GOAL] *)
Definition help_and_more (goal : string) : Args :=
  mkArgs false None true true None true true false false (Some goal).

(** [autocrew.py -a -m COUNT GOAL] *)
Definition auto_run (count : Z) (goal : string) : Args :=
  mkArgs true None false false (Some count) false false false false (Some goal).

(** [autocrew.py -c PARAM -m COUNT GOAL] *)
Definition config_and_count (param : string) (count : Z) (goal : string) : Args :=
  mkArgs false (Some [param]) false false (Some count) false false false false (Some goal).

(** [autocrew.py -r], the goal left to the prompt *)
Definition rank_prompted : Args :=
  mkArgs false None false false None true false false false None.

(** [autocrew.py -c BASIC.llm_endpoint=openai -m 3 "Launch a product"] on
    the reference model, with a backend that would answer. *)
Definition config_only_run : outcome unit * world Core.outside (list ranked_entry) :=
  script Run.X
    ["autocrew.py"; "-c"; "BASIC.llm_endpoint=openai"; "-m"; "3"; "Launch a product"]
    (config_and_count "BASIC.llm_endpoint=openai" 3 "Launch a product")
    (start [] Run.empty_store).

(** The candidates that the generation calls of a trace handed back. *)
Definition generated {Ranked} (tr : list (event Ranked)) : list string :=
  tr ≫= λ ev, match ev_call ev, ev_result ev with
              | CGenerateScripts _ _, Ok (RPaths paths) => paths
              | _, _ => []
              end.

(** An [AutoCrew] whose generation hands back an empty list, without raising. *)
Definition barren : AutoCrew (E := unit) (Ranked := unit) :=
  mkAutoCrew
    (λ _ _ e, (Ok [], e))
    (λ _ e, (Ok [], e))
    (λ _ _ _ e, (Ok (tt, EmptyString), e))
    (λ _ _ e, (Ok tt, e))
    (λ e, (Ok tt, e)).

(** Libraries that always succeed, around the object [autocrew]. *)
Definition around (autocrew : AutoCrew (E := unit) (Ranked := unit))
  : Externals (E := unit) (Ranked := unit) :=
  mkExternals
    (λ e, (Ok tt, e))
    (λ _ e, (Ok 0, e))
    "python3"
    (λ e, (Ok AUTOCREW_VERSION, e))
    (λ _ _, Ok false)
    (help_text Run.X)
    (λ e, (Ok tt, e))
    (λ _ e, (Ok tt, e))
    (λ _ _ e, (Ok tt, e))
    (λ e, (Ok autocrew, e))
    (λ _ e, (Ok ∅, e)).

(** Libraries as in [Run.X], with a [config.ini] that sets the length of
    identifiers to [value]. *)
Definition with_length (value : string)
  : Externals (E := Core.outside) (Ranked := list ranked_entry) :=
  mkExternals
    (setup_logging Run.X)
    (subprocess_run Run.X)
    (sys_executable Run.X)
    (fetch_latest_tag Run.X)
    (version_gt Run.X)
    (help_text Run.X)
    (install_requirements Run.X)
    (upgrade_files Run.X)
    (write_config_params Run.X)
    (new_AutoCrew Run.X)
    (λ _ o, (Ok {[ "CREWAI_SCRIPTS" := {[ "overall_goal_truncation_for_filenames" := value ]} ]}, o)).

(** * Properties *)

(** ** Slicing and truncation *)

Lemma take_length (n : nat) (s : string) :
  String.length (Py.take n s) = Nat.min n (String.length s).
Proof.
  revert s; induction n as [|n IH]; intros [|c s]; simpl; auto.
Qed.

Lemma take_drop (n : nat) (s : string) : s = Py.take n s +:+ Py.drop n s.
Proof.
  revert s; induction n as [|n IH]; intros [|c s]; simpl; auto.
  change (String c s = String c (Py.take n s +:+ Py.drop n s)).
  f_equal. apply IH.
Qed.

Lemma slice_to_prefix (s : string) (stop : Z) :
  ∃ rest, s = Py.slice_to s stop +:+ rest.
Proof.
  unfold Py.slice_to. destruct (0 <=? stop); eexists; apply take_drop.
Qed.

Lemma slice_to_len (s : string) (stop : Z) :
  0 ≤ stop → Py.len (Py.slice_to s stop) = Z.min stop (Py.len s).
Proof.
  intros H. unfold Py.slice_to, Py.len.
  destruct (Z.leb_spec 0 stop); [|lia].
  rewrite take_length. lia.
Qed.

(** A negative bound does not bound the length: it drops that many
    characters from the end. *)
Lemma slice_to_len_negative (s : string) (stop : Z) :
  stop < 0 → Py.len (Py.slice_to s stop) = Z.max 0 (Py.len s + stop).
Proof.
  intros H. unfold Py.slice_to, Py.len.
  destruct (Z.leb_spec 0 stop); [lia|].
  rewrite take_length. lia.
Qed.

(** C7, as the code has it.  Truncation of the goal is deterministic, and
    its result is a prefix of the goal, for every goal and every integer
    [max_length]; the result has at most [max_length] characters when
    [max_length] is not negative.  ([config.getint] hands over whatever
    integer the configuration file holds, and a negative one makes the
    slice count from the end.) *)
Theorem truncate_overall_goal_bounded (overall_goal : string) (max_length : Z) :
  (∀ goal' max_length',
     goal' = overall_goal → max_length' = max_length →
     truncate_overall_goal goal' max_length'
     = truncate_overall_goal overall_goal max_length)
  ∧ (∃ rest, overall_goal = truncate_overall_goal overall_goal max_length +:+ rest)
  ∧ (0 ≤ max_length →
     Py.len (truncate_overall_goal overall_goal max_length) ≤ max_length).
Proof.
  split; [by intros ?? -> ->|]. split.
  - apply slice_to_prefix.
  - intros Hmax. unfold truncate_overall_goal. rewrite slice_to_len by done. lia.
Qed.

Lemma truncate_overall_goal_bounded_witness :
  Py.len (truncate_overall_goal Run.long_goal 40) ≤ 40.
Proof.
  apply (truncate_overall_goal_bounded Run.long_goal 40). discriminate.
Defined.

(** C7 as stated fails for a negative configured length: with the value
    [-8] the goal [Launch a product] keeps its first 8 characters, and 8
    is not at most [-8]. *)
Lemma truncation_exceeds_negative_bound :
  truncate_overall_goal "Launch a product" (-8) = "Launch a"
  ∧ ¬ (Py.len (truncate_overall_goal "Launch a product" (-8)) ≤ -8).
Proof. split; [reflexivity|]. intros H. by vm_compute in H. Qed.

(** A goal within the bound is its own identifier. *)
Lemma truncate_short_goal (overall_goal : string) (max_length : Z) :
  Py.len overall_goal ≤ max_length →
  truncate_overall_goal overall_goal max_length = overall_goal.
Proof.
  intros H. unfold truncate_overall_goal, Py.slice_to, Py.len in *.
  destruct (Z.leb_spec 0 max_length); [|lia].
  assert (String.length overall_goal ≤ Z.to_nat max_length)%nat as Hn by lia.
  clear -Hn. revert Hn. generalize (Z.to_nat max_length) as n.
  induction overall_goal as [|c s IH]; intros [|n] Hn; simpl in *; auto; try lia.
  f_equal. apply IH. lia.
Qed.

(** ** The count of scripts *)

Section Count.

Context {E Ranked : Type}.

(** On its direct path [positive_int] keeps its promise: a value that reads
    as an integer is returned only when it is positive. *)
Lemma positive_int_direct (value : string) (z i : Z) (w w' : world E Ranked) :
  Py.int value = Some z →
  positive_int value w = (Ret i, w') →
  i = z ∧ 1 ≤ i ∧ w' = w.
Proof.
  intros Hz. unfold positive_int, try_except_if, bind, int_of_str. rewrite Hz. simpl.
  destruct (Z.leb_spec z 0); simpl.
  - unfold is_ValueError. simpl. discriminate.
  - intros [= <- <-]. repeat split; lia.
Qed.

Lemma positive_int_rejects (value : string) (z : Z) (w : world E Ranked) :
  Py.int value = Some z → z ≤ 0 →
  positive_int value w
  = (Raise (Exn ArgumentTypeError (value +:+ " is an invalid positive int value")), w).
Proof.
  intros Hz Hle. unfold positive_int, try_except_if, bind, int_of_str. rewrite Hz. simpl.
  destruct (Z.leb_spec z 0); [done | lia].
Qed.

End Count.

(** C5.  The count handed to generation is not always positive: when the
    value of [-m] does not read as an integer, [positive_int] falls back to
    the terminal and returns whatever integer is typed there, here [-3],
    and that count is the one the generation call receives. *)
Theorem positive_int_fallback_unchecked :
  (positive_int (E := unit) (Ranked := unit) "abc" (start ["-3"] tt)).1 = Ret (-3)
  ∧ num_scripts_to_generate (Run.multiple (-3) "goal") = -3
  ∧ generation_counts
      (trace (generate_and_run_scripts Run.X (Run.multiple (-3) "goal") Core.autocrew "goal"
                (start [] Run.empty_store)).2)
    = [-3].
Proof. by vm_compute. Qed.

(** ** The parsing policy of the ranking evaluator *)

Lemma first_mentions_elem (seen l : list nat) (i : nat) :
  i ∈ first_mentions seen l ↔ i ∈ l ∧ i ∉ seen.
Proof.
  revert seen; induction l as [|j l IH]; intros seen; simpl.
  - split; [by intros ?%elem_of_nil | by intros [?%elem_of_nil _]].
  - case_decide as Hj.
    + rewrite IH, elem_of_cons.
      split; [intros [? ?]; auto | intros [[->|?] ?]; [done | auto]].
    + rewrite !elem_of_cons, IH, not_elem_of_cons.
      destruct (decide (i = j)) as [->|]; tauto.
Qed.

Lemma first_mentions_NoDup (seen l : list nat) : NoDup (first_mentions seen l).
Proof.
  revert seen; induction l as [|j l IH]; intros seen; simpl.
  - constructor.
  - case_decide; [apply IH|].
    constructor; [|apply IH].
    rewrite first_mentions_elem, not_elem_of_cons. by intros (_ & ? & _).
Qed.

Lemma entry_index_flagged (ranked unranked : list nat) :
  entry_index <$> (((λ i, RankedEntry i false) <$> ranked)
                   ++ ((λ i, RankedEntry i true) <$> unranked))
  = ranked ++ unranked.
Proof.
  induction ranked as [|i ranked IH]; simpl.
  - induction unranked as [|i unranked IH]; simpl; [done|]. by f_equal.
  - by f_equal.
Qed.

Section ParsingFacts.

Context (scan : string → list nat).

Lemma mentioned_elem (candidates : list nat) (response : string) (i : nat) :
  i ∈ mentioned scan candidates response ↔ i ∈ scan response ∧ i ∈ candidates.
Proof.
  unfold mentioned. rewrite first_mentions_elem, list_elem_of_filter.
  split; [by intros [[? ?] _]|].
  intros [? ?]. split; [done|]. apply not_elem_of_nil.
Qed.

Lemma mentioned_NoDup (candidates : list nat) (response : string) :
  NoDup (mentioned scan candidates response).
Proof. apply first_mentions_NoDup. Qed.

Lemma ranking_order_Permutation (candidates : list nat) (response : string) :
  NoDup candidates →
  mentioned scan candidates response ++ never_mentioned scan candidates response
  ≡ₚ candidates.
Proof.
  intros Hnd. unfold never_mentioned.
  set (ms := mentioned scan candidates response).
  etrans; [|apply (filter_app_complement (λ i, i ∈ ms) candidates)].
  apply Permutation_app; [|done].
  apply NoDup_Permutation.
  - apply mentioned_NoDup.
  - by apply NoDup_filter.
  - intros i. rewrite list_elem_of_filter. subst ms.
    rewrite mentioned_elem. tauto.
Qed.

Lemma parsed_indices (candidates : list nat) (response : string)
    (ranking : list ranked_entry) :
  parse_ranking scan candidates response = Some ranking →
  mentioned scan candidates response ≠ []
  ∧ ranking = ((λ i, RankedEntry i false) <$> mentioned scan candidates response)
              ++ ((λ i, RankedEntry i true) <$> never_mentioned scan candidates response)
  ∧ entry_index <$> ranking
    = mentioned scan candidates response ++ never_mentioned scan candidates response.
Proof.
  unfold parse_ranking.
  destruct (mentioned scan candidates response) as [|i ms] eqn:Hm; [done|].
  intros [= <-]. split; [done|]. split; [done|].
  apply (entry_index_flagged (i :: ms)).
Qed.

End ParsingFacts.

(** C1.  Ranking a candidate set (distinct sequence indices) yields, whenever
    the response mentions at least one of its candidates, an order that is a
    permutation of exactly the input indices: no duplicates, no omissions,
    the candidates in order of first mention first and every candidate never
    mentioned appended, flagged unranked, in generation order.  A response
    that mentions no candidate is the one case without a ranking: it is
    unparseable. *)
Theorem ranking_is_permutation (scan : string → list nat)
    (candidates : list nat) (response : string) (Hdistinct : NoDup candidates) :
  match parse_ranking scan candidates response with
  | Some ranking =>
      entry_index <$> ranking ≡ₚ candidates
      ∧ NoDup (entry_index <$> ranking)
      ∧ length ranking = length candidates
      ∧ ranking = ((λ i, RankedEntry i false) <$> mentioned scan candidates response)
                  ++ ((λ i, RankedEntry i true)
                        <$> filter (λ i, i ∉ mentioned scan candidates response) candidates)
  | None => ∀ i, i ∈ scan response → i ∉ candidates
  end.
Proof.
  destruct (parse_ranking scan candidates response) as [ranking|] eqn:Hp.
  - destruct (parsed_indices _ _ _ _ Hp) as (_ & Hr & Hidx).
    pose proof (ranking_order_Permutation scan candidates response Hdistinct) as Hperm.
    rewrite <- Hidx in Hperm.
    repeat split; [done | | | done].
    + by rewrite Hperm.
    + rewrite <- (length_fmap entry_index). by rewrite Hperm.
  - unfold parse_ranking in Hp.
    destruct (mentioned scan candidates response) as [|j ms] eqn:Hm; [|done].
    intros i Hi Hc.
    assert (i ∈ mentioned scan candidates response) as Hin
      by (apply mentioned_elem; done).
    rewrite Hm in Hin. by apply elem_of_nil in Hin.
Qed.

Lemma ranking_is_permutation_witness :
  match parse_ranking digit_runs [1; 2; 3]%nat "3, 1" with
  | Some ranking =>
      entry_index <$> ranking ≡ₚ [1; 2; 3]%nat
      ∧ NoDup (entry_index <$> ranking)
      ∧ length ranking = 3%nat
      ∧ ranking = ((λ i, RankedEntry i false) <$> mentioned digit_runs [1; 2; 3]%nat "3, 1")
                  ++ ((λ i, RankedEntry i true)
                        <$> filter (λ i, i ∉ mentioned digit_runs [1; 2; 3]%nat "3, 1")
                              [1; 2; 3]%nat)
  | None => ∀ i, i ∈ digit_runs "3, 1" → i ∉ [1; 2; 3]%nat
  end.
Proof.
  apply (ranking_is_permutation digit_runs [1; 2; 3]%nat "3, 1").
  apply (bool_decide_unpack _). reflexivity.
Defined.

(** The scenarios of the specification. *)
Example ranking_all_mentioned :
  entry_index <$> default [] (parse_ranking digit_runs [1; 2; 3]%nat "3, 1, 2")
  = [3; 1; 2]%nat.
Proof. reflexivity. Qed.

Example ranking_one_unranked :
  parse_ranking digit_runs [1; 2; 3]%nat "3, 1"
  = Some [RankedEntry 3 false; RankedEntry 1 false; RankedEntry 2 true].
Proof. reflexivity. Qed.

(** A ranking exists exactly when the response mentions a candidate. *)
Lemma parse_ranking_is_Some (scan : string → list nat)
    (candidates : list nat) (response : string) :
  is_Some (parse_ranking scan candidates response)
  ↔ ∃ i, i ∈ scan response ∧ i ∈ candidates.
Proof.
  unfold parse_ranking.
  destruct (mentioned scan candidates response) as [|j ms] eqn:Hm.
  - split; [by intros [? ?]|].
    intros (i & Hi & Hc).
    assert (i ∈ mentioned scan candidates response) as Hin by (by apply mentioned_elem).
    rewrite Hm in Hin. by apply elem_of_nil in Hin.
  - split; [|by eauto].
    intros _. exists j. apply (mentioned_elem scan). rewrite Hm.
    apply elem_of_cons. by left.
Qed.

(** ** The ranking step *)

(** Unfolds the monad and runs a piece of the script on a symbolic world,
    splitting on what each outside call hands back. *)
Ltac unfold_script :=
  unfold handle_ranking, generate_and_run_scripts, try_except, try_except_if,
    bind, ret, raise, sys_exit, extern, pure_call, inner, returned,
    logging_info, logging_error, logging_exception, print,
    add_event, add_log, set_env in *.

Ltac split_call :=
  match goal with
  | |- context [match ?x with _ => _ end] =>
      match type of x with
      | (result _ * _)%type =>
          let r := fresh "r" in let e := fresh "e" in let H := fresh "Hcall" in
          destruct x as [r e] eqn:H; destruct r; simpl in *
      end
  end.

Section Ranking.

Context {E Ranked : Type}.
Implicit Types (autocrew : AutoCrew (E := E) (Ranked := Ranked)).
Implicit Types (w : world E Ranked).

Lemma handle_ranking_not_requested args autocrew goal paths w :
  arg_r args = false → handle_ranking args autocrew goal paths w = (Ret tt, w).
Proof. intros Hr. unfold handle_ranking. by rewrite Hr. Qed.

(** C3.  When ranking is requested and there is no candidate path, none
    handed over by generation and none discovered for the goal's identifier,
    the ranking step logs the error and exits with status 1; neither the
    evaluator nor the report writer is called. *)
Theorem ranking_empty_set_is_error args autocrew goal w e'
    (Hr : arg_r args = true)
    (Hnone : get_existing_scripts autocrew goal (env w) = (Ok [], e')) :
  handle_ranking args autocrew goal [] w
  = (Exit 1,
     World (stdin w) (stdout w)
           (log w ++ [(INFO, "Ranking process initiated.");
                      (ERROR, "No existing scripts found to rank.")])
           (trace w ++ [Event (CGetExistingScripts goal) (Ok (RPaths []))])
           e').
Proof.
  unfold_script. rewrite Hr. simpl. rewrite Hnone. simpl.
  by rewrite <- app_assoc.
Qed.

(** Every other way for the ranking step to fail: a call of the step raises,
    the error is logged and the process exits with status 1. *)
Lemma handle_ranking_outcome args autocrew goal paths w :
  (handle_ranking args autocrew goal paths w).1 = Ret tt
  ∨ (handle_ranking args autocrew goal paths w).1 = Exit 1.
Proof.
  unfold_script. destruct (arg_r args); simpl; [|by left].
  destruct paths as [|p paths]; simpl.
  - split_call; [|by right].
    destruct a as [|p' found]; simpl; [by right|].
    split_call; [|by right]. destruct a as [ranked summary]; simpl.
    split_call; [by left | by right].
  - split_call; [|by right]. destruct a as [ranked summary]; simpl.
    split_call; [by left | by right].
Qed.

(** The effect of the ranking step on the outside is the effect of the
    methods of [AutoCrew] it calls, and nothing else: what the three methods
    preserve, the step preserves, whether it succeeds or fails. *)
Lemma handle_ranking_frame {S : Type} (observe : E → S) args autocrew goal paths w :
  (∀ id e, observe (get_existing_scripts autocrew id e).2 = observe e) →
  (∀ ps g v e, observe (rank_crews autocrew ps g v e).2 = observe e) →
  (∀ r id e, observe (save_ranking_output autocrew r id e).2 = observe e) →
  observe (env (handle_ranking args autocrew goal paths w).2) = observe (env w).
Proof.
  intros Hget Hrank Hsave. unfold_script. destruct (arg_r args); simpl; [|done].
  destruct paths as [|p paths]; simpl.
  - pose proof (Hget goal (env w)) as H1.
    split_call; simpl in *; [|done].
    destruct a as [|p' found]; simpl; [done|].
    pose proof (Hrank (p' :: found) (overall_goal args) (arg_v args) e) as H2.
    split_call; simpl in *; [|congruence]. destruct a as [ranked summary]; simpl.
    pose proof (Hsave ranked goal e0) as H3.
    split_call; simpl in *; congruence.
  - pose proof (Hrank (p :: paths) (overall_goal args) (arg_v args) (env w)) as H2.
    split_call; simpl in *; [|congruence]. destruct a as [ranked summary]; simpl.
    pose proof (Hsave ranked goal e) as H3.
    split_call; simpl in *; congruence.
Qed.


(** On failure the step is aborted: what discovery and ranking preserve, and
    what a failing save leaves alone, is as it was. *)
Lemma handle_ranking_abort_frame {S : Type} (observe : E → S) args autocrew goal paths w :
  (∀ id e, observe (get_existing_scripts autocrew id e).2 = observe e) →
  (∀ ps g v e, observe (rank_crews autocrew ps g v e).2 = observe e) →
  (∀ r id e x e', save_ranking_output autocrew r id e = (Raised x, e') →
                  observe e' = observe e) →
  (handle_ranking args autocrew goal paths w).1 = Exit 1 →
  observe (env (handle_ranking args autocrew goal paths w).2) = observe (env w).
Proof.
  intros Hget Hrank Hsave. unfold_script. destruct (arg_r args); simpl; [|done].
  destruct paths as [|p paths]; simpl.
  - pose proof (Hget goal (env w)) as H1.
    split_call; simpl in *; [|done].
    destruct a as [|p' found]; simpl; [done|].
    pose proof (Hrank (p' :: found) (overall_goal args) (arg_v args) e) as H2.
    split_call; simpl in *; [|congruence]. destruct a as [ranked summary]; simpl.
    split_call; simpl in *; [done|].
    intros _. apply Hsave in Hcall1. congruence.
  - pose proof (Hrank (p :: paths) (overall_goal args) (arg_v args) (env w)) as H2.
    split_call; simpl in *; [|congruence]. destruct a as [ranked summary]; simpl.
    split_call; simpl in *; [done|].
    intros _. apply Hsave in Hcall0. congruence.
Qed.

(** The ranking step makes no generation call, ranks the paths it is handed
    when there are any, and discovers only otherwise. *)
Lemma handle_ranking_calls args autocrew goal paths w :
  arg_r args = true →
  ∃ new, trace (handle_ranking args autocrew goal paths w).2 = trace w ++ new
    ∧ existsb is_generation new = false
    ∧ (paths ≠ [] →
       existsb is_discovery new = false
       ∧ ∀ ev, ev ∈ new → is_ranking ev = true →
               ev_call ev = CRankCrews paths (overall_goal args) (arg_v args))
    ∧ (paths = [] →
       ∃ res, head new = Some (Event (CGetExistingScripts goal) res)
         ∧ ∀ ev, ev ∈ new → is_ranking ev = true →
             ∃ found, res = Ok (RPaths found)
               ∧ ev_call ev = CRankCrews found (overall_goal args) (arg_v args)).
Proof.
  intros Hr. unfold_script. rewrite Hr. simpl.
  destruct paths as [|p paths]; simpl.
  - split_call.
    + destruct a as [|p' found]; simpl.
      { eexists; split; [done|]. split; [done|]. split; [done|].
        intros _. eexists; split; [done|].
        intros ev ->%list_elem_of_singleton; done. }
      split_call; [destruct a as [ranked summary]; simpl; split_call|];
        rewrite <- ?app_assoc; simpl;
        (eexists; split; [done|]; split; [done|]; split; [done|];
         intros _; eexists; split; [done|];
         intros ev Hev Hrk;
         repeat (apply elem_of_cons in Hev as [->|Hev]; try done);
         try (by apply elem_of_nil in Hev);
         eexists; split; done).
    + eexists; split; [done|]. split; [done|]. split; [done|].
      intros _. eexists; split; [done|].
      intros ev ->%list_elem_of_singleton; done.
  - split_call; [destruct a as [ranked summary]; simpl; split_call|];
      rewrite <- ?app_assoc; simpl;
      (eexists; split; [done|]; split; [done|]; split; [|done];
       intros _; split; [done|];
       intros ev Hev Hrk;
       repeat (apply elem_of_cons in Hev as [->|Hev]; try done);
       try (by apply elem_of_nil in Hev)).
Qed.

(** C8, as the script has it.  In every successful ranking the report-saving
    step is called once, with the ranking that [rank_crews] returned and the
    truncated goal as its only arguments; the evaluation prompt that
    [rank_crews] returned goes to the log. *)
Theorem save_step_receives_ranking args autocrew goal paths w w'
    (Hr : arg_r args = true)
    (Hok : handle_ranking args autocrew goal paths w = (Ret tt, w')) :
  ∃ found ranked_crews overall_summary before,
    trace w'
    = trace w ++ before
        ++ [Event (CRankCrews found (overall_goal args) (arg_v args))
                  (Ok (RRanking ranked_crews overall_summary));
            Event (CSaveRankingOutput ranked_crews goal) (Ok RNone)]
    ∧ existsb is_save before = false
    ∧ log w'
      = log w ++ [(INFO, "Ranking process initiated.");
                  (INFO, "Ranking prompt:" +:+ Py.nl +:+ overall_summary +:+ Py.nl);
                  (INFO, "Ranking process completed.")].
Proof.
  revert Hok. unfold_script. rewrite Hr. simpl.
  destruct paths as [|p paths]; simpl.
  - split_call; [|done].
    destruct a as [|p' found]; simpl; [done|].
    split_call; [|done]. destruct a as [ranked summary]; simpl.
    split_call; [|done]. intros [= <-]. simpl.
    exists (p' :: found), ranked, summary,
      [Event (CGetExistingScripts goal) (Ok (RPaths (p' :: found)))].
    rewrite <- !app_assoc. done.
  - split_call; [|done]. destruct a as [ranked summary]; simpl.
    split_call; [|done]. intros [= <-]. simpl.
    exists (p :: paths), ranked, summary, [].
    rewrite <- !app_assoc. done.
Qed.

End Ranking.

Lemma ranking_empty_set_is_error_witness :
  (handle_ranking (Run.rank_only "Launch a product") Core.autocrew "Launch a product" []
     (start [] Run.empty_store)).1
  = Exit 1.
Proof.
  rewrite (ranking_empty_set_is_error (Run.rank_only "Launch a product") Core.autocrew
             "Launch a product" (start [] Run.empty_store) Run.empty_store);
    reflexivity.
Defined.


Lemma save_step_receives_ranking_witness :
  ∃ found ranked_crews overall_summary before,
    trace (handle_ranking (Run.rank_only "g") (Run.fixed_prompt "PROMPT") "g" ["crew.csv"]
             (start [] tt)).2
    = trace (start (Ranked := unit) [] tt) ++ before
        ++ [Event (CRankCrews found (Some "g") false)
                  (Ok (RRanking ranked_crews overall_summary));
            Event (CSaveRankingOutput ranked_crews "g") (Ok RNone)]
    ∧ existsb is_save before = false
    ∧ log (handle_ranking (Run.rank_only "g") (Run.fixed_prompt "PROMPT") "g" ["crew.csv"]
             (start [] tt)).2
      = log (start (Ranked := unit) [] tt)
          ++ [(INFO, "Ranking process initiated.");
              (INFO, "Ranking prompt:" +:+ Py.nl +:+ overall_summary +:+ Py.nl);
              (INFO, "Ranking process completed.")].
Proof.
  apply (save_step_receives_ranking (Run.rank_only "g") (Run.fixed_prompt "PROMPT") "g"
           ["crew.csv"] (start [] tt)); reflexivity.
Defined.

(** C8, as stated, fails: two rankings that differ in the evaluation prompt
    alone lead to the same call of the report-saving step, so the prompt
    cannot be read off what that step receives. *)
Lemma save_step_never_sees_prompt :
  ¬ save_step_receives_prompt (E := unit) (Ranked := unit).
Proof.
  intros [prompt_of H].
  assert (∀ prompt, prompt_of (CSaveRankingOutput tt "g") = Some prompt) as Hall.
  { intros prompt.
    destruct (H (Run.fixed_prompt prompt) (Run.rank_only "g") "g" ["crew.csv"]
                (start [] tt) _
                (CRankCrews ["crew.csv"] (Some "g") false) tt prompt eq_refl)
      as (ev & Hev & Hsave & Hp).
    { simpl. apply elem_of_cons. by left. }
    simpl in Hev.
    apply elem_of_cons in Hev as [->|Hev]; [done|].
    apply list_elem_of_singleton in Hev as ->. exact Hp. }
  pose proof (Hall "PROMPT A") as HA. pose proof (Hall "PROMPT B") as HB.
  congruence.
Qed.

(** ** The reference model keeps its candidates *)

Lemma generate_store (goal instructions : string) (o : Core.outside) :
  Core.store (Core.generate goal instructions o).2 = Core.store o
  ∧ Core.reports (Core.generate goal instructions o).2 = Core.reports o.
Proof. unfold Core.generate. by destruct (Core.backend o). Qed.

Lemma generate_with_retry_store (goal instructions : string) (o : Core.outside) :
  Core.store (Core.generate_with_retry goal instructions o).2 = Core.store o
  ∧ Core.reports (Core.generate_with_retry goal instructions o).2 = Core.reports o.
Proof.
  unfold Core.generate_with_retry.
  pose proof (generate_store goal instructions o) as [Hs Hr].
  destruct (Core.generate goal instructions o) as [[content|e] o']; simpl in *; [done|].
  destruct (Core.is_class "BackendUnavailable" e); simpl; [|done].
  pose proof (generate_store goal instructions o') as [Hs' Hr'].
  split; congruence.
Qed.

Lemma rank_store (candidate_set : list string) (goal : option string) (verbose : bool)
    (o : Core.outside) :
  Core.store (Core.rank candidate_set goal verbose o).2 = Core.store o
  ∧ Core.reports (Core.rank candidate_set goal verbose o).2 = Core.reports o.
Proof.
  unfold Core.rank. destruct (Core.load candidate_set o) as [loaded|e]; [|done].
  pose proof (generate_with_retry_store (default EmptyString goal)
                (Core.evaluation_prompt goal loaded) o) as H.
  destruct (Core.generate_with_retry _ _ o) as [[response|e] o']; simpl in *; [|done].
  by destruct (parse_ranking digit_runs (fst <$> loaded) response).
Qed.

Lemma save_store (ranking : list ranked_entry) (goal_id : string) (o : Core.outside) :
  Core.store (Core.save ranking goal_id o).2 = Core.store o.
Proof. unfold Core.save. by destruct (Core.disk_ok o). Qed.

Lemma save_raised (ranking : list ranked_entry) (goal_id : string) (o o' : Core.outside)
    (x : exn) :
  Core.save ranking goal_id o = (Raised x, o') → o' = o.
Proof. unfold Core.save. destruct (Core.disk_ok o); [done|]. by intros [= _ <-]. Qed.

(** C9.  Whatever the ranking step does, and in particular when it fails
    (no candidate to rank, or an exception in discovery, ranking or report
    saving), the persisted candidates are what they were: the step ends by
    returning or by exiting with status 1, and on that exit no report has
    been written either. *)
Theorem ranking_failure_keeps_candidates (args : Args) (goal : string)
    (paths : list string) (w : world Core.outside (list ranked_entry)) :
  let r := handle_ranking args Core.autocrew goal paths w in
  Core.store (env r.2) = Core.store (env w)
  ∧ (r.1 = Ret tt ∨ r.1 = Exit 1)
  ∧ (r.1 = Exit 1 → Core.reports (env r.2) = Core.reports (env w)).
Proof.
  simpl. split; [|split].
  - apply (handle_ranking_frame Core.store); simpl.
    + done.
    + intros. apply rank_store.
    + intros. apply save_store.
  - apply handle_ranking_outcome.
  - apply (handle_ranking_abort_frame Core.reports); simpl.
    + done.
    + intros. apply rank_store.
    + intros r id e x e' Hs. apply save_raised in Hs. by subst.
Qed.

(** A ranking that fails in the evaluator, on a store of two candidates. *)
Example ranking_unparseable_keeps_store :
  let o := Core.Outside (Core.store Run.earlier_run) [] [Ok "no preference"] true in
  let r := handle_ranking (Run.rank_only "Launch a product") Core.autocrew
             "Launch a product" [] (start [] o) in
  r.1 = Exit 1 ∧ Core.store (env r.2) = Core.store o ∧ Core.reports (env r.2) = [].
Proof. by vm_compute. Qed.

(** ** The generation step *)

Section Generation.

Context {E Ranked : Type} (X : Externals (E := E) (Ranked := Ranked)).
Implicit Types (autocrew : AutoCrew (E := E) (Ranked := Ranked)).
Implicit Types (w : world E Ranked).



(** C10.  With any of [-c], [-h], [-d], [-u] set, the generation step makes no
    call at all and returns the empty list, whatever the goal and the count;
    in the ranking that follows, every call of the evaluator is on the paths
    that discovery returned. *)
Theorem flags_skip_generation args autocrew goal w
    (Hflag : Py.truthy_opt Py.truthy_list (arg_c args) = true
             ∨ arg_h args = true ∨ arg_d args = true ∨ arg_u args = true) :
  generate_and_run_scripts X args autocrew goal w = (Ret [], w)
  ∧ ∃ new,
      trace (bind (generate_and_run_scripts X args autocrew goal)
                  (handle_ranking args autocrew goal) w).2
      = trace w ++ new
      ∧ existsb is_generation new = false
      ∧ ∀ ev, ev ∈ new → is_ranking ev = true →
          ∃ found, Event (CGetExistingScripts goal) (Ok (RPaths found)) ∈ new
                   ∧ ev_call ev = CRankCrews found (overall_goal args) (arg_v args).
Proof.
  assert (no_script_generation_params args = true) as Hno.
  { unfold no_script_generation_params, Py.any. simpl.
    destruct Hflag as [-> | [-> | [-> | ->]]]; simpl;
      rewrite ?orb_true_r; done. }
  assert (generate_and_run_scripts X args autocrew goal w = (Ret [], w)) as Hgen.
  { unfold generate_and_run_scripts. by rewrite Hno. }
  split; [done|].
  unfold bind. rewrite Hgen.
  destruct (arg_r args) eqn:Hr.
  - destruct (handle_ranking_calls args autocrew goal [] w Hr)
      as (new & Htrace & Hgenx & _ & Hdisc).
    destruct (Hdisc eq_refl) as (res & Hhead & Hrank).
    exists new. split; [done|]. split; [done|].
    intros ev Hev Hrk. destruct (Hrank ev Hev Hrk) as (found & -> & Hcall).
    exists found. split; [|done].
    destruct new as [|ev0 new]; [done|]. simpl in Hhead. injection Hhead as ->.
    apply elem_of_cons. by left.
  - rewrite handle_ranking_not_requested by done.
    exists []. rewrite app_nil_r. split; [done|]. split; [done|].
    intros ev Hev. by apply elem_of_nil in Hev.
Qed.


End Generation.

Lemma flags_skip_generation_witness :
  generate_and_run_scripts Run.X (Run.config_and_rank "BASIC.llm_endpoint=openai" "Launch a product")
    Core.autocrew "Launch a product" (start [] Run.earlier_run)
  = (Ret [], start [] Run.earlier_run).
Proof.
  apply (flags_skip_generation Run.X
           (Run.config_and_rank "BASIC.llm_endpoint=openai" "Launch a product")
           Core.autocrew "Launch a product" (start [] Run.earlier_run)).
  left. reflexivity.
Defined.

(** [autocrew.py -c BASIC.llm_endpoint=openai -r "Launch a product"] after an
    earlier run: the two candidates of that run are ranked, none is generated. *)
Example config_and_rank_reranks :
  let r := script Run.X ["autocrew.py"; "-c"; "BASIC.llm_endpoint=openai"; "-r"; "Launch a product"]
             (Run.config_and_rank "BASIC.llm_endpoint=openai" "Launch a product")
             (start [] (Core.Outside (Core.store Run.earlier_run) [] [Ok "2 then 1"] true)) in
  r.1 = Exit 0
  ∧ generation_goals (trace r.2) = []
  ∧ Core.reports (env r.2)
    = [Core.Report "Launch a product" [RankedEntry 2 false; RankedEntry 1 false]].
Proof. by vm_compute. Qed.



(** What that run ranks is the one candidate it has just generated, which
    took the place of the first candidate of the earlier run. *)
Example rerun_ranks_fresh_candidate :
  let r := script Run.X ["autocrew.py"; "-r"; "Launch a product"]
             (Run.rank_only "Launch a product") (start [] Run.earlier_run) in
  r.1 = Exit 0
  ∧ generation_goals (trace r.2) = ["Launch a product"]
  ∧ existsb is_discovery (trace r.2) = false
  ∧ Core.get (Core.location "Launch a product" 1) (env r.2) = Ok "third"
  ∧ Core.reports (env r.2) = [Core.Report "Launch a product" [RankedEntry 1 false]].
Proof. by vm_compute. Qed.

(** C2.  The generation call does not receive the full goal: [main] hands
    the generation step the truncated goal and nothing else, so a goal longer
    than the configured maximum (40 by default) reaches [generate_scripts]
    cut to its first 40 characters. *)
Theorem generation_receives_truncated_goal :
  let r := script Run.X ["autocrew.py"; Run.long_goal] (Run.no_flags Run.long_goal)
             (start [] Run.empty_store) in
  40 < Py.len Run.long_goal
  ∧ generation_goals (trace r.2) = ["Plan a product launch event for the spri"]
  ∧ generation_goals (trace r.2) ≠ [Run.long_goal].
Proof. by vm_compute. Qed.

(** ** The exit code *)

Section ExitCode.

Context {E Ranked : Type}.
Implicit Types (w : world E Ranked).

Local Abbreviation M := (M E Ranked).

Lemma failed_add_event (ev : event Ranked) w :
  failed (add_event ev w) = failed w || raised_event ev.
Proof.
  unfold failed, add_event. simpl. rewrite existsb_app. simpl.
  rewrite orb_false_r.
  destruct (existsb raised_event (trace w)), (raised_event ev),
    (existsb (λ r, bool_decide (r = no_scripts_record)) (log w)); done.
Qed.

Lemma failed_add_log (l : level) (msg : string) w :
  failed (add_log l msg w) = failed w || bool_decide ((l, msg) = no_scripts_record).
Proof.
  unfold failed, add_log. simpl. rewrite existsb_app. simpl.
  rewrite orb_false_r. by rewrite orb_assoc.
Qed.

Lemma failed_ext w w' :
  trace w' = trace w → log w' = log w → failed w' = failed w.
Proof. unfold failed. by intros -> ->. Qed.

Lemma failed_add_info (msg : string) w : failed (add_log INFO msg w) = failed w.
Proof. rewrite failed_add_log. by rewrite orb_false_r. Qed.

Lemma failed_stays (l : level) (msg : string) w :
  failed w = true → failed (add_log l msg w) = true.
Proof. intros H. rewrite failed_add_log. by rewrite H. Qed.

Lemma sound_ret {A} (a : A) : sound (ret a : M A).
Proof. intros w Hw. exact Hw. Qed.

Lemma sound_bind {A B} (m : M A) (k : A → M B) :
  sound m → (∀ a, sound (k a)) → sound (bind m k).
Proof.
  intros Hm Hk w Hw. specialize (Hm w Hw). unfold exit_post, bind in *.
  destruct (m w) as [[a|e|c] w1]; simpl in *; [|done..].
  exact (Hk a w1 Hm).
Qed.

Lemma sound_exit_0 {A} : sound (sys_exit 0 : M A).
Proof. intros w Hw. left. done. Qed.

Lemma sound_logging_info (msg : string) : sound (logging_info msg : M unit).
Proof.
  intros w Hw. unfold exit_post, logging_info. simpl. by rewrite failed_add_info.
Qed.

Lemma sound_print (msg : string) : sound (print msg : M unit).
Proof.
  intros w Hw. unfold exit_post, print. simpl. by rewrite <- Hw.
Qed.

Lemma sound_extern {A} (c : call Ranked) (summary : A → reply Ranked)
    (op : E → result A * E) :
  sound (extern c summary op).
Proof.
  intros w Hw. unfold exit_post, extern.
  destruct (op (env w)) as [[a|x] e']; simpl; rewrite failed_add_event.
  - rewrite (failed_ext w) by done. by rewrite Hw.
  - by rewrite orb_true_r.
Qed.

Lemma sound_pure_call {A} (c : call Ranked) (summary : A → reply Ranked) (r : result A) :
  sound (pure_call c summary r : M A).
Proof. apply sound_extern. Qed.

Lemma sound_returned (c : call Ranked) (r : reply Ranked) :
  sound (returned c r : M unit).
Proof.
  intros w Hw. unfold exit_post, returned. simpl.
  rewrite failed_add_event. by rewrite Hw.
Qed.

Lemma sound_input (prompt : string) : sound (input prompt : M string).
Proof.
  intros w Hw. unfold exit_post, input, failed in *.
  destruct (stdin w); simpl; rewrite existsb_app; simpl.
  - by rewrite orb_true_r.
  - by rewrite orb_false_r.
Qed.

Lemma sound_for_each {A} (l : list A) (body : A → M unit) :
  (∀ x, sound (body x)) → sound (for_each l body).
Proof.
  intros Hbody. induction l as [|x l IH]; simpl.
  - apply sound_ret.
  - apply sound_bind; [apply Hbody | intros _; apply IH].
Qed.

Lemma exits_1_handler (msg : string) :
  exits_1 (bind (logging_exception msg) (λ _, sys_exit 1) : M unit).
Proof.
  intros w. eexists. split; [reflexivity|]. apply failed_stays.
Qed.

Lemma exits_1_handler_paths (msg : string) :
  exits_1 (bind (logging_exception msg) (λ _, sys_exit 1) : M (list string)).
Proof.
  intros w. eexists. split; [reflexivity|]. apply failed_stays.
Qed.

(** [try ... except Exception] around a sound body, with a handler that
    reports and exits: nothing propagates. *)
Lemma sound_try_except {A} (body : M A) (handler : exn → M A) :
  sound body → (∀ e, exits_1 (handler e)) → sound (try_except body handler).
Proof.
  intros Hbody Hh w Hw. specialize (Hbody w Hw). unfold exit_post, try_except in *.
  destruct (body w) as [[a|e|c] w1]; simpl in *; [done| |done].
  destruct (Hh e w1) as (w2 & -> & Hf). simpl. right. auto.
Qed.

Lemma try_except_no_raise {A} (body : M A) (handler : exn → M A) w e :
  (∀ e, exits_1 (handler e)) → (try_except body handler w).1 ≠ Raise e.
Proof.
  intros Hh. unfold try_except.
  destruct (body w) as [[a|e'|c] w1]; simpl; [done| |done].
  destruct (Hh e' w1) as (w2 & -> & _). done.
Qed.

Lemma never_returns_bind {A B} (m : M A) (k : A → M B) :
  (∀ a, never_returns (k a)) → never_returns (bind m k).
Proof.
  intros Hk w b. unfold bind.
  destruct (m w) as [[a|e|c] w1]; simpl; [apply Hk | done..].
Qed.

Lemma never_returns_exit {A} (c : Z) : never_returns (sys_exit c : M A).
Proof. intros w a. done. Qed.

Lemma never_returns_try_except {A} (body : M A) (handler : exn → M A) :
  never_returns body → (∀ e, exits_1 (handler e)) →
  never_returns (try_except body handler).
Proof.
  intros Hbody Hh w a. unfold try_except.
  specialize (Hbody w). destruct (body w) as [[a'|e|c] w1]; simpl in *.
  - by destruct (Hbody a').
  - destruct (Hh e w1) as (w2 & -> & _). done.
  - done.
Qed.

Context (X : Externals (E := E) (Ranked := Ranked)).
Implicit Types (autocrew : AutoCrew (E := E) (Ranked := Ranked)).

(** The version check always returns, and records one call that returned. *)
Lemma check_latest_version_returns w :
  ∃ version e',
    check_latest_version X w
    = (Ret version,
       add_event (Event CCheckLatestVersion (Ok (RStr version.1))) (set_env e' w)).
Proof.
  unfold check_latest_version, bind at 1, try_except, bind, inner, ret, returned,
    add_event, set_env.
  destruct (fetch_latest_tag X (env w)) as [[tag|x] e1]; simpl.
  - destruct (version_gt X tag AUTOCREW_VERSION) as [[|]|x]; simpl;
      [by eexists (_, _), _..|].
    destruct (is_RequestException x); [by eexists (_, _), _|].
    destruct (is_JSONDecodeError x); by eexists (_, _), _.
  - destruct (is_RequestException x); [by eexists (_, _), _|].
    destruct (is_JSONDecodeError x); by eexists (_, _), _.
Qed.

Lemma sound_check_latest_version : sound (check_latest_version X).
Proof.
  intros w Hw. destruct (check_latest_version_returns w) as (version & e' & ->).
  unfold exit_post. simpl. rewrite failed_add_event.
  rewrite (failed_ext w) by done. by rewrite Hw.
Qed.

Lemma sound_handle_help args : sound (handle_help X args).
Proof.
  unfold handle_help. destruct (arg_h args); [|apply sound_ret].
  apply sound_bind; [apply sound_print | intros _; apply sound_exit_0].
Qed.

Lemma sound_handle_install_dependencies args : sound (handle_install_dependencies X args).
Proof.
  unfold handle_install_dependencies. destruct (arg_d args); [|apply sound_ret].
  apply sound_bind; [apply sound_extern | intros _; apply sound_exit_0].
Qed.

Lemma sound_upgrade_autocrew latest_version : sound (upgrade_autocrew X latest_version).
Proof.
  unfold upgrade_autocrew.
  apply sound_bind; [apply sound_extern | intros _].
  apply sound_bind; [apply sound_logging_info | intros _].
  apply sound_bind; [apply sound_print | intros _; apply sound_exit_0].
Qed.

Lemma sound_handle_upgrade args latest_version : sound (handle_upgrade X args latest_version).
Proof.
  unfold handle_upgrade. destruct (arg_u args); [|apply sound_ret].
  apply sound_bind; [apply sound_pure_call | intros newer].
  apply sound_bind; [|intros _; apply sound_exit_0].
  destruct newer; [apply sound_upgrade_autocrew | apply sound_logging_info].
Qed.

Lemma sound_handle_config_update args : sound (handle_config_update X args).
Proof.
  unfold handle_config_update.
  destruct (arg_c args) as [[|param params]|]; try apply sound_ret.
  apply sound_bind; [apply sound_pure_call | intros config_dict].
  apply sound_extern.
Qed.

Lemma sound_generate_and_run_scripts args autocrew goal :
  sound (generate_and_run_scripts X args autocrew goal).
Proof.
  unfold generate_and_run_scripts.
  destruct (negb (no_script_generation_params args)); [|apply sound_ret].
  apply sound_try_except; [|intros e; apply exits_1_handler_paths].
  apply sound_bind; [apply sound_logging_info | intros _].
  apply sound_bind; [apply sound_extern | intros paths].
  apply sound_bind; [|intros _; apply sound_ret].
  destruct (arg_a args); [|apply sound_ret].
  apply sound_for_each. intros path.
  apply sound_bind; [apply sound_extern | intros _; apply sound_ret].
Qed.

(** Ranking an empty set: the error record marks the run as failed. *)
Lemma sound_no_scripts :
  sound (bind (logging_error "No existing scripts found to rank.") (λ _, sys_exit 1)
         : M unit).
Proof.
  intros w Hw. right. split; [done|]. simpl.
  rewrite failed_add_log. by rewrite orb_true_r.
Qed.

Lemma sound_handle_ranking args autocrew goal paths :
  sound (handle_ranking args autocrew goal paths).
Proof.
  unfold handle_ranking. destruct (arg_r args); [|apply sound_ret].
  apply sound_try_except; [|intros e; apply exits_1_handler].
  apply sound_bind; [apply sound_logging_info | intros _].
  apply sound_bind.
  { destruct (negb (Py.truthy_list paths)); [apply sound_extern | apply sound_ret]. }
  intros found.
  apply sound_bind.
  { destruct (negb (Py.truthy_list found)); [apply sound_no_scripts | apply sound_ret]. }
  intros _.
  apply sound_bind; [apply sound_extern | intros [ranked summary]].
  apply sound_bind; [apply sound_logging_info | intros _].
  apply sound_bind; [apply sound_extern | intros _; apply sound_logging_info].
Qed.

Lemma sound_main argv args : sound (main X argv args).
Proof.
  unfold main.
  apply sound_bind; [apply sound_extern | intros _].
  apply sound_bind; [apply sound_logging_info | intros _].
  case_decide.
  { apply sound_bind; [apply sound_print | intros _].
    apply sound_bind; [apply sound_extern | intros _; apply sound_exit_0]. }
  apply sound_bind; [apply sound_logging_info | intros _].
  apply sound_bind;
    [|intros _; apply sound_bind; [apply sound_logging_info | intros _; apply sound_exit_0]].
  apply sound_try_except; [|intros e; apply exits_1_handler].
  apply sound_bind; [apply sound_check_latest_version | intros [latest_version message]].
  apply sound_bind; [apply sound_logging_info | intros _].
  apply sound_bind; [apply sound_handle_help | intros _].
  apply sound_bind; [apply sound_handle_install_dependencies | intros _].
  apply sound_bind; [apply sound_handle_upgrade | intros _].
  apply sound_bind; [apply sound_handle_config_update | intros _].
  apply sound_bind; [apply sound_extern | intros autocrew].
  apply sound_bind; [apply sound_extern | intros _].
  apply sound_bind.
  { destruct (negb (Py.truthy_opt Py.truthy_str (overall_goal args))); [|apply sound_ret].
    apply sound_bind; [apply sound_input | intros goal; apply sound_ret]. }
  intros args'.
  apply sound_bind; [apply sound_extern | intros config].
  apply sound_bind; [apply sound_pure_call | intros max_length].
  apply sound_bind; [apply sound_generate_and_run_scripts | intros paths].
  apply sound_handle_ranking.
Qed.

Lemma main_never_returns argv args : never_returns (main X argv args).
Proof.
  unfold main.
  apply never_returns_bind; intros _.
  apply never_returns_bind; intros _.
  case_decide.
  - apply never_returns_bind; intros _.
    apply never_returns_bind; intros _. apply never_returns_exit.
  - apply never_returns_bind; intros _.
    apply never_returns_bind; intros _.
    apply never_returns_bind; intros _. apply never_returns_exit.
Qed.

(** C4, as the code has it.  From the arguments [parse_arguments] returned
    on, every run ends by [sys.exit], with code 0 or 1: the code is 1
    exactly when a call of the main flow raised an exception or ranking
    found no candidate to rank, and 0 exactly when neither happened.  The
    script itself never looks at how many candidates were generated: no
    candidate leads to code 1 only through an exception of
    [generate_scripts], or through a ranking step that finds nothing. *)
Theorem exit_code_reflects_failure (argv : list string) (args : Args)
    (lines : list string) (e : E) :
  ∃ code w',
    script X argv args (start lines e) = (Exit code, w')
    ∧ (code = 0 ∨ code = 1)
    ∧ (code = 0 ↔ failed w' = false)
    ∧ (code = 1 ↔ failed w' = true).
Proof.
  assert (sound (script X argv args)) as Hsound.
  { apply sound_try_except; [apply sound_main | intros x; apply exits_1_handler]. }
  specialize (Hsound (start lines e) eq_refl). unfold exit_post in Hsound.
  pose proof (never_returns_try_except (main X argv args)
                (λ x, bind (logging_exception ("An unhandled exception occurred: " +:+ exn_msg x))
                           (λ _, sys_exit 1))
                (main_never_returns argv args)
                (λ x, exits_1_handler _) (start lines e)) as Hret.
  pose proof (λ x, try_except_no_raise (main X argv args)
                (λ x, bind (logging_exception ("An unhandled exception occurred: " +:+ exn_msg x))
                           (λ _, sys_exit 1))
                (start lines e) x (λ x, exits_1_handler _)) as Hraise.
  fold (script X argv args) in Hret, Hraise.
  destruct (script X argv args (start lines e)) as [[a|x|code] w'] eqn:Hrun; simpl in *.
  - by destruct (Hret a).
  - by destruct (Hraise x).
  - exists code, w'. split; [done|].
    destruct Hsound as [[-> Hf] | [-> Hf]]; rewrite Hf; intuition congruence.
Qed.

End ExitCode.

(** ** Runs of the whole script on the reference model *)

(** C4, as stated, fails: [-c BASIC.llm_endpoint=openai -m 3 "Launch a
    product"] asks for three candidates, but with [-c] the generation step
    is skipped; no candidate is generated, none is in the store, and the
    process exits with status 0, not 1. *)
Lemma zero_candidates_exit_0 :
  num_scripts_to_generate (config_and_count "BASIC.llm_endpoint=openai" 3 "Launch a product") = 3
  ∧ generated (trace config_only_run.2) = []
  ∧ Core.store (env config_only_run.2) = []
  ∧ config_only_run.1 = Exit 0
  ∧ ¬ (generated (trace config_only_run.2) = [] → config_only_run.1 = Exit 1).
Proof.
  repeat split; try by vm_compute.
  intros H. specialize (H eq_refl). vm_compute in H. discriminate.
Qed.

(** The script accepts an empty list from [generate_scripts]: with an
    object whose generation hands back no candidate and does not raise,
    [-m 3 "Launch a product"] exits with status 0. *)
Example empty_generation_exits_0 :
  let r := script (around barren) ["autocrew.py"; "-m"; "3"; "Launch a product"]
             (Run.multiple 3 "Launch a product") (start [] tt) in
  r.1 = Exit 0
  ∧ generation_counts (trace r.2) = [3]
  ∧ generated (trace r.2) = []
  ∧ failed r.2 = false.
Proof. by vm_compute. Qed.

(** The backend never answers: no candidate is generated, the run exits
    with status 1 and nothing is persisted. *)
Example generation_failure_exits_1 :
  let r := script Run.X ["autocrew.py"; "-m"; "3"; "Launch a product"]
             (Run.multiple 3 "Launch a product")
             (start [] (Core.Outside [] [] [] true)) in
  r.1 = Exit 1 ∧ Core.store (env r.2) = [] ∧ failed r.2 = true.
Proof. by vm_compute. Qed.

(** The disk refuses the write of the first candidate. *)
Example storage_failure_exits_1 :
  let r := script Run.X ["autocrew.py"; "Launch a product"]
             (Run.no_flags "Launch a product")
             (start [] (Core.Outside [] [] [Ok "a crew"] false)) in
  r.1 = Exit 1 ∧ failed r.2 = true.
Proof. by vm_compute. Qed.

(** [-c ... -r] with nothing in the store: there is nothing to rank. *)
Example rank_nothing_exits_1 :
  let r := script Run.X ["autocrew.py"; "-c"; "BASIC.llm_endpoint=openai"; "-r"; "Launch a product"]
             (Run.config_and_rank "BASIC.llm_endpoint=openai" "Launch a product")
             (start [] Run.empty_store) in
  r.1 = Exit 1
  ∧ last (log r.2) = Some (ERROR, "No existing scripts found to rank.")
  ∧ existsb is_ranking (trace r.2) = false.
Proof. by vm_compute. Qed.

(** Generation and ranking of three candidates, the third ranked first. *)
Example generate_three_and_rank :
  let args := mkArgs false None false false (Some 3) true false false false
                     (Some "Launch a product") in
  let r := script Run.X ["autocrew.py"; "-m"; "3"; "-r"; "Launch a product"] args
             (start [] (Core.Outside [] [] [Ok "one"; Ok "two"; Ok "three"; Ok "3, 1"] true)) in
  r.1 = Exit 0
  ∧ snd <$> Core.list_ "Launch a product" (env r.2)
    = Core.location "Launch a product" <$> [1; 2; 3]%nat
  ∧ Core.reports (env r.2)
    = [Core.Report "Launch a product"
         [RankedEntry 3 false; RankedEntry 1 false; RankedEntry 2 true]].
Proof. by vm_compute. Qed.

(** Without [-m] one script is asked for, and a typed [0] counts as absent. *)
Example num_scripts_default :
  num_scripts_to_generate (Run.no_flags "goal") = 1
  ∧ num_scripts_to_generate (Run.multiple 0 "goal") = 1
  ∧ num_scripts_to_generate (Run.multiple 5 "goal") = 5.
Proof. done. Qed.

(** * Further properties of the script *)

(** ** Strings *)

Lemma append_String (c : ascii) (a b : string) : String c a +:+ b = String c (a +:+ b).
Proof. reflexivity. Qed.

Lemma append_empty_r (a : string) : a +:+ EmptyString = a.
Proof. induction a as [|c a IH]; [done|]. rewrite append_String. by f_equal. Qed.

Lemma length_append (a b : string) :
  String.length (a +:+ b) = (String.length a + String.length b)%nat.
Proof.
  induction a as [|c a IH]; [done|]. rewrite append_String. simpl. by f_equal.
Qed.

Lemma occurs_append (c : ascii) (a b : string) :
  occurs c (a +:+ b) = occurs c a || occurs c b.
Proof.
  induction a as [|c' a IH]; [done|]. rewrite append_String. simpl.
  rewrite IH. by rewrite orb_assoc.
Qed.

Lemma split1_Some (sep : ascii) (s a b : string) :
  Py.split1 sep s = Some (a, b) ↔ s = a +:+ String sep b ∧ occurs sep a = false.
Proof.
  revert a; induction s as [|c s IH]; intros a; simpl.
  - split; [done|]. intros [H _]. by destruct a.
  - case_decide as Hc.
    + subst c. split.
      * intros [= <- <-]. done.
      * intros [H Ho]. destruct a as [|c' a]; simpl in *.
        { by injection H as <-. }
        rewrite append_String in H. injection H as -> _.
        by rewrite bool_decide_eq_true_2 in Ho.
    + destruct (Py.split1 sep s) as [[a' b']|] eqn:Hs; simpl.
      * split.
        -- intros [= <- <-]. rewrite append_String. simpl.
           destruct (proj1 (IH a') eq_refl) as [-> Ho]. split; [done|].
           by rewrite bool_decide_eq_false_2.
        -- intros [H Ho]. destruct a as [|c' a]; simpl in *.
           { injection H as -> _. done. }
           rewrite append_String in H. injection H as <- ->.
           apply orb_false_elim in Ho as [_ Ho].
           assert (Some (a', b') = Some (a, b)) as [= -> ->]; [|done].
           apply IH. done.
      * split; [done|]. intros [H Ho]. destruct a as [|c' a]; simpl in *.
        { injection H as -> _. done. }
        rewrite append_String in H. injection H as <- ->.
        apply orb_false_elim in Ho as [_ Ho].
        assert (None = Some (a, b)) as Hn; [|done].
        apply IH. done.
Qed.

Lemma split1_None (sep : ascii) (s : string) :
  Py.split1 sep s = None ↔ occurs sep s = false.
Proof.
  induction s as [|c s IH]; simpl; [done|].
  case_decide as Hc.
  - subst. by rewrite bool_decide_eq_true_2.
  - rewrite bool_decide_eq_false_2 by done. simpl. rewrite <- IH.
    by destruct (Py.split1 sep s) as [[a b]|].
Qed.

(** ** The parameters of [-c] *)

Lemma well_formed_param_split (param : string) :
  well_formed_param param
  ↔ ∃ section key_value key value,
      Py.split1 "." param = Some (section, key_value)
      ∧ Py.split1 "=" key_value = Some (key, value).
Proof.
  split.
  - intros (section & key & value & -> & Hs).
    exists section, (key +:+ "=" +:+ value).
    destruct (Py.split1 "=" (key +:+ "=" +:+ value)) as [[k v]|] eqn:Hkv.
    + exists k, v. split; [|done]. by apply split1_Some.
    + apply split1_None in Hkv. rewrite occurs_append in Hkv.
      by rewrite orb_true_r in Hkv.
  - intros (section & key_value & key & value & Hs & Hkv).
    apply split1_Some in Hs as [-> Hs]. apply split1_Some in Hkv as [-> _].
    by exists section, key, value.
Qed.

Lemma parse_step (param : string) (rest : list string) (d : config)
    (section key_value key value : string) :
  Py.split1 "." param = Some (section, key_value) →
  Py.split1 "=" key_value = Some (key, value) →
  parse_config_parameters_go (param :: rest) d
  = parse_config_parameters_go rest
      (<[Py.strip section :=
           <[Py.strip key := Py.strip value]> (default ∅ (d !! Py.strip section))]> d).
Proof. intros Hs Hkv. simpl. by rewrite Hs, Hkv. Qed.

Lemma parse_malformed (param : string) (rest : list string) (d : config) :
  ¬ well_formed_param param →
  parse_config_parameters_go (param :: rest) d = Raised (invalid_config_parameter param).
Proof.
  intros Hbad. simpl.
  destruct (Py.split1 "." param) as [[section key_value]|] eqn:Hs; [|done].
  destruct (Py.split1 "=" key_value) as [[key value]|] eqn:Hkv; [|done].
  destruct Hbad. apply well_formed_param_split. by exists section, key_value, key, value.
Qed.

Lemma parse_go_app (ps qs : list string) (d : config) :
  parse_config_parameters_go (ps ++ qs) d
  = match parse_config_parameters_go ps d with
    | Ok d' => parse_config_parameters_go qs d'
    | Raised e => Raised e
    end.
Proof.
  revert d; induction ps as [|p ps IH]; intros d; [done|].
  rewrite <- app_comm_cons. simpl.
  destruct (Py.split1 "." p) as [[section key_value]|]; [|done].
  destruct (Py.split1 "=" key_value) as [[key value]|]; [|done].
  apply IH.
Qed.

Lemma parse_go_ok_iff (ps : list string) (d : config) :
  (∃ d', parse_config_parameters_go ps d = Ok d') ↔ Forall well_formed_param ps.
Proof.
  revert d; induction ps as [|p ps IH]; intros d.
  - split; [constructor | by eexists].
  - split.
    + intros [d' H]. simpl in H.
      destruct (Py.split1 "." p) as [[section key_value]|] eqn:Hs; [|done].
      destruct (Py.split1 "=" key_value) as [[key value]|] eqn:Hkv; [|done].
      constructor.
      * apply well_formed_param_split. by exists section, key_value, key, value.
      * eapply IH. by exists d'.
    + intros [Hp Hps]%Forall_cons.
      apply well_formed_param_split in Hp as (section & key_value & key & value & Hs & Hkv).
      rewrite (parse_step _ _ _ _ _ _ _ Hs Hkv). by apply IH.
Qed.

(** X1.  [parse_config_parameters] succeeds exactly when every parameter
    reads SECTION.KEY=VALUE, a dot and then an equals sign after the first
    dot. *)
Theorem parse_config_parameters_ok_iff (config_params : list string) :
  (∃ config_dict, parse_config_parameters config_params = Ok config_dict)
  ↔ Forall well_formed_param config_params.
Proof. apply parse_go_ok_iff. Qed.

Lemma parse_first_malformed (good : list string) (bad : string) (rest : list string) :
  Forall well_formed_param good → ¬ well_formed_param bad →
  parse_config_parameters (good ++ bad :: rest) = Raised (invalid_config_parameter bad).
Proof.
  intros Hgood Hbad. unfold parse_config_parameters. rewrite parse_go_app.
  destruct (proj2 (parse_go_ok_iff good ∅) Hgood) as [d ->].
  by apply parse_malformed.
Qed.

(** X2.  The first parameter that does not read SECTION.KEY=VALUE stops the
    parsing: the error is an [ArgumentTypeError] that names it, whatever
    comes after it. *)
Theorem parse_config_parameters_first_malformed (good : list string) (bad : string)
    (rest : list string)
    (Hgood : Forall well_formed_param good) (Hbad : ¬ well_formed_param bad) :
  parse_config_parameters (good ++ bad :: rest)
  = Raised (Exn ArgumentTypeError ("Invalid config parameter format: " +:+ bad)).
Proof. by apply parse_first_malformed. Qed.

Lemma not_well_formed_without_equals (param : string) :
  occurs "=" param = false → ¬ well_formed_param param.
Proof.
  intros Ho (section & key & value & -> & _).
  rewrite !occurs_append in Ho. simpl in Ho.
  by rewrite !orb_true_r in Ho.
Qed.

Lemma parse_config_parameters_first_malformed_witness :
  parse_config_parameters ["BASIC.llm_endpoint=openai"; "OLLAMA_CONFIG.llm_model"; "x"]
  = Raised (Exn ArgumentTypeError
              ("Invalid config parameter format: " +:+ "OLLAMA_CONFIG.llm_model")).
Proof.
  apply (parse_config_parameters_first_malformed
           ["BASIC.llm_endpoint=openai"] "OLLAMA_CONFIG.llm_model" ["x"]).
  - repeat constructor. exists "BASIC", "llm_endpoint", "openai". split; reflexivity.
  - apply not_well_formed_without_equals. reflexivity.
Defined.

(** X3.  Parameters are applied in order: a parameter SECTION.KEY=VALUE
    (no dot in SECTION, no equals sign in KEY) added at the end sets that
    key of that section to the value, all three stripped of surrounding
    white space, whatever the earlier parameters had set there, and leaves
    every other key as the earlier parameters set it. *)
Theorem parse_config_parameters_last_wins (config_params : list string)
    (config_dict : config) (section key value : string)
    (Hparsed : parse_config_parameters config_params = Ok config_dict)
    (Hsection : occurs "." section = false)
    (Hkey : occurs "=" key = false) :
  ∃ config_dict',
    parse_config_parameters (config_params ++ [section +:+ "." +:+ key +:+ "=" +:+ value])
    = Ok config_dict'
    ∧ config_dict' !! Py.strip section ≫= (.!! Py.strip key) = Some (Py.strip value)
    ∧ ∀ s k, (s, k) ≠ (Py.strip section, Py.strip key) →
             config_dict' !! s ≫= (.!! k) = config_dict !! s ≫= (.!! k).
Proof.
  unfold parse_config_parameters in *. rewrite parse_go_app, Hparsed.
  assert (Py.split1 "." (section +:+ "." +:+ key +:+ "=" +:+ value)
          = Some (section, key +:+ "=" +:+ value)) as Hs by (by apply split1_Some).
  assert (Py.split1 "=" (key +:+ "=" +:+ value) = Some (key, value)) as Hkv
    by (by apply split1_Some).
  rewrite (parse_step _ _ _ _ _ _ _ Hs Hkv). simpl.
  eexists. split; [done|]. split.
  - rewrite lookup_insert_eq. simpl. by rewrite lookup_insert_eq.
  - intros s k Hne. destruct (decide (s = Py.strip section)) as [->|Hs'].
    + rewrite lookup_insert_eq. simpl.
      rewrite lookup_insert_ne by congruence.
      by destruct (config_dict !! Py.strip section).
    + by rewrite lookup_insert_ne.
Qed.

Lemma parse_config_parameters_last_wins_witness :
  ∃ config_dict',
    parse_config_parameters
      (["BASIC.llm_endpoint=ollama"] ++ ["BASIC" +:+ "." +:+ " llm_endpoint " +:+ "=" +:+ "openai"])
    = Ok config_dict'
    ∧ config_dict' !! Py.strip "BASIC" ≫= (.!! Py.strip " llm_endpoint ")
      = Some (Py.strip "openai")
    ∧ ∀ s k, (s, k) ≠ (Py.strip "BASIC", Py.strip " llm_endpoint ") →
             config_dict' !! s ≫= (.!! k)
             = ({[ "BASIC" := {[ "llm_endpoint" := "ollama" ]} ]} : config) !! s ≫= (.!! k).
Proof.
  apply (parse_config_parameters_last_wins ["BASIC.llm_endpoint=ollama"]
           {[ "BASIC" := {[ "llm_endpoint" := "ollama" ]} ]}
           "BASIC" " llm_endpoint " "openai"); reflexivity.
Defined.

(** ** Truncation, further *)

Lemma take_take (n m : nat) (s : string) :
  Py.take n (Py.take m s) = Py.take (Nat.min n m) s.
Proof.
  revert m s; induction n as [|n IH]; intros [|m] [|c s]; simpl; auto.
  by rewrite IH.
Qed.

Lemma take_append_le (n : nat) (p a : string) :
  (n ≤ String.length p)%nat → Py.take n (p +:+ a) = Py.take n p.
Proof.
  revert p; induction n as [|n IH]; intros [|c p] Hn; simpl in *; auto; try lia.
  f_equal. apply IH. lia.
Qed.

Lemma drop_length (n : nat) (s : string) :
  String.length (Py.drop n s) = (String.length s - n)%nat.
Proof.
  revert s; induction n as [|n IH]; intros [|c s]; simpl; auto.
Qed.

(** X4.  A negative bound is no maximum length: the identifier is the goal
    without its last [-max_length] characters (empty when the goal is that
    short), still a prefix of the goal. *)
Theorem truncate_negative_bound (overall_goal : string) (max_length : Z)
    (Hneg : max_length < 0) :
  ∃ rest,
    overall_goal = truncate_overall_goal overall_goal max_length +:+ rest
    ∧ Py.len rest = Z.min (- max_length) (Py.len overall_goal)
    ∧ Py.len (truncate_overall_goal overall_goal max_length)
      = Z.max 0 (Py.len overall_goal + max_length).
Proof.
  unfold truncate_overall_goal, Py.slice_to, Py.len.
  destruct (Z.leb_spec 0 max_length); [lia|].
  exists (Py.drop (Z.to_nat (Z.of_nat (String.length overall_goal) + max_length)) overall_goal).
  split; [apply take_drop|]. rewrite drop_length, take_length. lia.
Qed.

Lemma truncate_negative_bound_witness :
  ∃ rest,
    "Launch a product" = truncate_overall_goal "Launch a product" (-8) +:+ rest
    ∧ Py.len rest = Z.min (- (-8)) (Py.len "Launch a product")
    ∧ Py.len (truncate_overall_goal "Launch a product" (-8))
      = Z.max 0 (Py.len "Launch a product" + -8).
Proof. apply (truncate_negative_bound "Launch a product" (-8)). reflexivity. Defined.

(** X5.  Truncating twice is truncating to the smaller bound; in particular
    an identifier is left as it is when it is truncated again to the same
    length. *)
Theorem truncate_overall_goal_twice (overall_goal : string) (m n : Z)
    (Hm : 0 ≤ m) (Hn : 0 ≤ n) :
  truncate_overall_goal (truncate_overall_goal overall_goal m) n
  = truncate_overall_goal overall_goal (Z.min n m).
Proof.
  unfold truncate_overall_goal, Py.slice_to.
  destruct (Z.leb_spec 0 m); [|lia]. destruct (Z.leb_spec 0 n); [|lia].
  destruct (Z.leb_spec 0 (Z.min n m)); [|lia].
  rewrite take_take. f_equal. lia.
Qed.

Lemma truncate_overall_goal_twice_witness :
  truncate_overall_goal (truncate_overall_goal Run.long_goal 40) 40
  = truncate_overall_goal Run.long_goal (Z.min 40 40).
Proof. apply (truncate_overall_goal_twice Run.long_goal 40 40); discriminate. Defined.

(** X6.  Goals that agree on their first [max_length] characters have the
    same identifier: what follows the common start does not count. *)
Theorem truncate_overall_goal_collision (common : string) (a b : string) (max_length : Z)
    (Hmax : 0 ≤ max_length) (Hlen : max_length ≤ Py.len common) :
  truncate_overall_goal (common +:+ a) max_length
  = truncate_overall_goal (common +:+ b) max_length.
Proof.
  unfold truncate_overall_goal, Py.slice_to, Py.len in *.
  destruct (Z.leb_spec 0 max_length); [|lia].
  rewrite !take_append_le by lia. done.
Qed.

Lemma truncate_overall_goal_collision_witness :
  truncate_overall_goal ("Plan a product launch event for the spri" +:+ "ng collection") 40
  = truncate_overall_goal ("Plan a product launch event for the spri" +:+ "nt review") 40.
Proof.
  apply (truncate_overall_goal_collision "Plan a product launch event for the spri"
           "ng collection" "nt review" 40); discriminate.
Defined.

(** X7.  A goal no longer than the bound is its own identifier. *)
Theorem truncate_overall_goal_within_bound (overall_goal : string) (max_length : Z)
    (Hlen : Py.len overall_goal ≤ max_length) :
  truncate_overall_goal overall_goal max_length = overall_goal.
Proof.
  unfold truncate_overall_goal, Py.slice_to, Py.len in *.
  destruct (Z.leb_spec 0 max_length); [|lia].
  rewrite (take_drop (Z.to_nat max_length) overall_goal) at 2.
  assert (Py.drop (Z.to_nat max_length) overall_goal = EmptyString) as ->.
  { pose proof (drop_length (Z.to_nat max_length) overall_goal) as Hd.
    destruct (Py.drop (Z.to_nat max_length) overall_goal); [done|]. simpl in Hd. lia. }
  by rewrite append_empty_r.
Qed.

Lemma truncate_overall_goal_within_bound_witness :
  truncate_overall_goal "Launch a product" 40 = "Launch a product".
Proof. apply (truncate_overall_goal_within_bound "Launch a product" 40). discriminate. Defined.

(** ** The count of scripts, further *)

Section CountFurther.

Context {E Ranked : Type}.
Implicit Types (w : world E Ranked).



Lemma input_int_loop_eof (lines : list string) w :
  stdin w = lines →
  Forall (λ l, Py.int l = None) lines →
  input_int_loop (stdin w) w
  = (Raise eof_error,
     World []
           (stdout w ++ repeat "Invalid input. Please enter a valid number." (length lines))
           (log w)
           (trace w ++ ((λ l, Event (CInput EmptyString) (Ok (RStr l))) <$> lines)
                   ++ [Event (CInput EmptyString) (Raised eof_error)])
           (env w)).
Proof.
  revert w; induction lines as [|l lines IH]; intros w Hin Hbad.
  - rewrite Hin. simpl. unfold bind, input. rewrite Hin. simpl. by rewrite app_nil_r.
  - apply Forall_cons in Hbad as [Hl Hbad].
    rewrite Hin. simpl. unfold try_except_if at 1, bind at 1, input at 1. rewrite Hin. simpl.
    unfold int_of_str at 1. rewrite Hl. simpl. unfold bind at 1, print at 1. simpl.
    match goal with |- input_int_loop _ ?w1 = _ =>
      pose proof (IH w1 eq_refl Hbad) as Hrec; simpl in Hrec end.
    rewrite Hrec. by rewrite <- !app_assoc.
Qed.


(** X10.  When no line of the terminal reads as an integer, the fallback of
    [positive_int] ends in [EOFError], after one complaint for each line. *)
Theorem positive_int_fallback_eof (value : string) w
    (Hvalue : Py.int value = None)
    (Hlines : Forall (λ l, Py.int l = None) (stdin w)) :
  positive_int value w
  = (Raise eof_error,
     World []
           (stdout w
              ++ ["Please specify the total number of alternative scripts to generate: "]
              ++ repeat "Invalid input. Please enter a valid number." (length (stdin w)))
           (log w)
           (trace w ++ ((λ l, Event (CInput EmptyString) (Ok (RStr l))) <$> stdin w)
                   ++ [Event (CInput EmptyString) (Raised eof_error)])
           (env w)).
Proof.
  unfold positive_int, try_except_if, bind at 1, int_of_str at 1. rewrite Hvalue. simpl.
  unfold bind, print. simpl.
  match goal with |- input_int_loop _ ?w1 = _ =>
    pose proof (input_int_loop_eof (stdin w) w1 eq_refl Hlines) as Hloop;
    simpl in Hloop end.
  rewrite Hloop. by rewrite <- !app_assoc.
Qed.

End CountFurther.



Lemma positive_int_fallback_eof_witness :
  (positive_int (E := unit) (Ranked := unit) "many" (start ["a few"; "3.5"] tt)).1
  = Raise eof_error.
Proof.
  rewrite (positive_int_fallback_eof (E := unit) (Ranked := unit)
             "many" (start ["a few"; "3.5"] tt)); [reflexivity | reflexivity |].
  repeat constructor.
Defined.

(** ** Reasoning on the calls of a run *)

Section FlowRules.

Context {E Ranked : Type}.
Implicit Types (w : world E Ranked).
Implicit Types (P : list (event Ranked) → Prop).
Implicit Types (Q R T : kind → list (event Ranked) → Prop).

Local Abbreviation M := (M E Ranked).

Lemma tr_ext {A} P Q (m m' : M A) :
  (∀ w, m w = m' w) → tr_triple P m Q → tr_triple P m' Q.
Proof. intros Heq Hm w Hw. rewrite <- Heq. by apply Hm. Qed.

Lemma tr_ret {A} P Q (a : A) :
  (∀ tr, P tr → Q KRet tr) → tr_triple P (ret a : M A) Q.
Proof. intros H w Hw. by apply H. Qed.

Lemma tr_exit {A} P Q (c : Z) :
  (∀ tr, P tr → Q KExit tr) → tr_triple P (sys_exit c : M A) Q.
Proof. intros H w Hw. by apply H. Qed.

Lemma tr_bind {A B} P Q R (m : M A) (k : A → M B) :
  tr_triple P m R →
  (∀ a, tr_triple (R KRet) (k a) Q) →
  (∀ tr, R KRaise tr → Q KRaise tr) →
  (∀ tr, R KExit tr → Q KExit tr) →
  tr_triple P (bind m k) Q.
Proof.
  intros Hm Hk Hraise Hexit w Hw. specialize (Hm w Hw). unfold bind.
  destruct (m w) as [[a|e|c] w1]; simpl in *; [by apply Hk | by apply Hraise | by apply Hexit].
Qed.

Lemma tr_try {A} P Q R (body : M A) (handler : exn → M A) :
  tr_triple P body R →
  (∀ e, tr_triple (R KRaise) (handler e) Q) →
  (∀ tr, R KRet tr → Q KRet tr) →
  (∀ tr, R KExit tr → Q KExit tr) →
  tr_triple P (try_except body handler) Q.
Proof.
  intros Hb Hh Hret Hexit w Hw. specialize (Hb w Hw). unfold try_except.
  destruct (body w) as [[a|e|c] w1]; simpl in *; [by apply Hret | by apply Hh | by apply Hexit].
Qed.

Lemma tr_extern {A} P Q (c : call Ranked) (summary : A → reply Ranked)
    (op : E → result A * E) :
  (∀ tr r, P tr → Q KRet (tr ++ [Event c (Ok r)])) →
  (∀ tr x, P tr → Q KRaise (tr ++ [Event c (Raised x)])) →
  tr_triple P (extern c summary op) Q.
Proof.
  intros Hok Hraised w Hw. unfold extern.
  destruct (op (env w)) as [[a|x] e']; simpl; [by apply Hok | by apply Hraised].
Qed.

Lemma tr_input P Q (prompt : string) :
  (∀ tr r, P tr → Q KRet (tr ++ [Event (CInput prompt) (Ok r)])) →
  (∀ tr x, P tr → Q KRaise (tr ++ [Event (CInput prompt) (Raised x)])) →
  tr_triple P (input prompt : M string) Q.
Proof.
  intros Hok Hraised w Hw. unfold input.
  destruct (stdin w); simpl; [by apply Hraised | by apply Hok].
Qed.

Lemma tr_logging_info P Q (msg : string) :
  (∀ tr, P tr → Q KRet tr) → tr_triple P (logging_info msg : M unit) Q.
Proof. intros H w Hw. by apply H. Qed.

Lemma tr_logging_error P Q (msg : string) :
  (∀ tr, P tr → Q KRet tr) → tr_triple P (logging_error msg : M unit) Q.
Proof. intros H w Hw. by apply H. Qed.

Lemma tr_print P Q (msg : string) :
  (∀ tr, P tr → Q KRet tr) → tr_triple P (print msg : M unit) Q.
Proof. intros H w Hw. by apply H. Qed.

(** The handlers of the script: report, then [sys.exit(1)]. *)
Lemma tr_handler {A} P Q (msg : string) :
  (∀ tr, P tr → Q KExit tr) →
  tr_triple P (bind (logging_exception msg) (λ _, sys_exit 1) : M A) Q.
Proof. intros H w Hw. by apply H. Qed.

Lemma bind_ret_l {A B} (a : A) (k : A → M B) w : bind (ret a) k w = k a w.
Proof. reflexivity. Qed.

Lemma bind_assoc {A B C} (m : M A) (f : A → M B) (k : B → M C) w :
  bind (bind m f) k w = bind m (λ a, bind (f a) k) w.
Proof. unfold bind. by destruct (m w) as [[a|e|c] w1]. Qed.

(** *** Families kept throughout *)

Lemma keeps_ret {A} T (a : A) : keeps T (ret a : M A).
Proof. by apply tr_ret. Qed.

Lemma keeps_bind {A B} T (m : M A) (k : A → M B) :
  keeps T m → (∀ a, keeps T (k a)) → keeps T (bind m k).
Proof. intros Hm Hk. by apply (tr_bind _ _ T). Qed.

Lemma keeps_bind_ret {A B} T (a : A) (k : A → M B) :
  keeps T (k a) → keeps T (bind (ret a) k).
Proof. apply tr_ext. intros w. by rewrite bind_ret_l. Qed.

Lemma keeps_bind_never {A B} T (m : M A) (k : A → M B) :
  never_returns m → keeps T m → keeps T (bind m k).
Proof.
  intros Hnever Hm w Hw. specialize (Hm w Hw). specialize (Hnever w). unfold bind.
  destruct (m w) as [[a|e|c] w1]; simpl in *; [by destruct (Hnever a) | done..].
Qed.

Lemma keeps_extern {A} T (c : call Ranked) (summary : A → reply Ranked)
    (op : E → result A * E) :
  call_ok T c → keeps T (extern c summary op).
Proof. intros Hc. apply tr_extern; intros tr ? Htr; by apply Hc. Qed.

Lemma keeps_pure_call {A} T (c : call Ranked) (summary : A → reply Ranked) (r : result A) :
  call_ok T c → keeps T (pure_call c summary r : M A).
Proof. apply keeps_extern. Qed.

Lemma keeps_input T (prompt : string) :
  call_ok T (CInput prompt) → keeps T (input prompt : M string).
Proof. intros Hc. apply tr_input; intros tr ? Htr; by apply Hc. Qed.

Lemma keeps_logging_info T (msg : string) : keeps T (logging_info msg : M unit).
Proof. by apply tr_logging_info. Qed.

Lemma keeps_print T (msg : string) : keeps T (print msg : M unit).
Proof. by apply tr_print. Qed.

Lemma keeps_exit {A} T (c : Z) : ends_ok T → keeps T (sys_exit c : M A).
Proof. intros Hends. apply tr_exit. intros tr. apply Hends. Qed.

Lemma keeps_try {A} T (body : M A) (msg : exn → string) :
  ends_ok T → keeps T body →
  keeps T (try_except body (λ e, bind (logging_exception (msg e)) (λ _, sys_exit 1))).
Proof.
  intros Hends Hbody. apply (tr_try _ _ T); [done | | done..].
  intros e. apply tr_handler. intros tr. apply Hends.
Qed.

Lemma keeps_for_each {A} T (l : list A) (body : A → M unit) :
  (∀ x, keeps T (body x)) → keeps T (for_each l body).
Proof.
  intros Hbody. induction l as [|x l IH]; simpl; [apply keeps_ret|].
  apply keeps_bind; [apply Hbody | intros _; apply IH].
Qed.

Lemma never_returns_bind_l {A B} (m : M A) (k : A → M B) :
  never_returns m → never_returns (bind m k).
Proof.
  intros Hm w b. specialize (Hm w). unfold bind.
  destruct (m w) as [[a|e|c] w1]; simpl in *; [by destruct (Hm a) | done..].
Qed.

Context (X : Externals (E := E) (Ranked := Ranked)).
Implicit Types (autocrew : AutoCrew (E := E) (Ranked := Ranked)).

Lemma keeps_check_latest_version T :
  call_ok T CCheckLatestVersion → keeps T (check_latest_version X).
Proof.
  intros Hc w Hw. destruct (check_latest_version_returns X w) as (version & e' & ->).
  simpl. by apply Hc.
Qed.

Lemma keeps_handle_help T args : ends_ok T → keeps T (handle_help X args).
Proof.
  intros Hends. unfold handle_help. destruct (arg_h args); [|apply keeps_ret].
  apply keeps_bind; [apply keeps_print | intros _; by apply keeps_exit].
Qed.

Lemma keeps_handle_install_dependencies T args :
  ends_ok T → (arg_d args = true → call_ok T CInstallDependencies) →
  keeps T (handle_install_dependencies X args).
Proof.
  intros Hends Hc. unfold handle_install_dependencies.
  destruct (arg_d args); [|apply keeps_ret].
  apply keeps_bind; [by apply keeps_extern, Hc | intros _; by apply keeps_exit].
Qed.

Lemma keeps_handle_upgrade T args latest_version :
  ends_ok T →
  (arg_u args = true → ∀ a b, call_ok T (CVersionNewer a b)) →
  (arg_u args = true → ∀ v, call_ok T (CUpgradeAutocrew v)) →
  keeps T (handle_upgrade X args latest_version).
Proof.
  intros Hends Hnewer Hup. unfold handle_upgrade.
  destruct (arg_u args); [|apply keeps_ret].
  apply keeps_bind; [by apply keeps_pure_call, Hnewer | intros newer].
  apply keeps_bind; [|intros _; by apply keeps_exit].
  destruct newer; [|apply keeps_logging_info].
  unfold upgrade_autocrew.
  apply keeps_bind; [by apply keeps_extern, Hup | intros _].
  apply keeps_bind; [apply keeps_logging_info | intros _].
  apply keeps_bind; [apply keeps_print | intros _; by apply keeps_exit].
Qed.

Lemma keeps_handle_config_update T args :
  (Py.truthy_opt Py.truthy_list (arg_c args) = true →
   (∀ ps, call_ok T (CParseConfigParameters ps))
   ∧ (∀ d b, call_ok T (CUpdateConfigFile d b))) →
  keeps T (handle_config_update X args).
Proof.
  intros Hc. unfold handle_config_update.
  destruct (arg_c args) as [[|param params]|]; try apply keeps_ret.
  destruct (Hc eq_refl) as [Hparse Hupdate].
  apply keeps_bind; [by apply keeps_pure_call | intros config_dict].
  by apply keeps_extern.
Qed.

Lemma keeps_generate_and_run_scripts T args autocrew goal :
  ends_ok T →
  (no_script_generation_params args = false → ∀ g n, call_ok T (CGenerateScripts g n)) →
  (no_script_generation_params args = false → arg_a args = true →
   ∀ cmd, call_ok T (CSubprocessRun cmd)) →
  keeps T (generate_and_run_scripts X args autocrew goal).
Proof.
  intros Hends Hgen Hsub. unfold generate_and_run_scripts.
  destruct (no_script_generation_params args); [apply keeps_ret|]. simpl.
  apply (keeps_try T _ (λ _, "An error occurred during script generation.")); [done|].
  apply keeps_bind; [apply keeps_logging_info | intros _].
  apply keeps_bind; [by apply keeps_extern, Hgen | intros paths].
  apply keeps_bind; [|intros _; apply keeps_ret].
  destruct (arg_a args); [|apply keeps_ret].
  apply keeps_for_each. intros path.
  apply keeps_bind; [by apply keeps_extern, Hsub | intros _; apply keeps_ret].
Qed.

Lemma keeps_handle_ranking T args autocrew goal paths :
  ends_ok T →
  (arg_r args = true →
   (∀ g, call_ok T (CGetExistingScripts g))
   ∧ (∀ ps g v, call_ok T (CRankCrews ps g v))
   ∧ (∀ r g, call_ok T (CSaveRankingOutput r g))) →
  keeps T (handle_ranking args autocrew goal paths).
Proof.
  intros Hends Hc. unfold handle_ranking. destruct (arg_r args); [|apply keeps_ret].
  destruct (Hc eq_refl) as (Hget & Hrank & Hsave).
  apply (keeps_try T _ (λ _, "An error occurred during script ranking.")); [done|].
  apply keeps_bind; [apply keeps_logging_info | intros _].
  apply keeps_bind.
  { destruct (negb (Py.truthy_list paths)); [by apply keeps_extern | apply keeps_ret]. }
  intros found.
  apply keeps_bind.
  { destruct (negb (Py.truthy_list found)); [|apply keeps_ret].
    apply keeps_bind; [by apply tr_logging_error | intros _; by apply keeps_exit]. }
  intros _.
  apply keeps_bind; [by apply keeps_extern | intros [ranked summary]].
  apply keeps_bind; [apply keeps_logging_info | intros _].
  apply keeps_bind; [by apply keeps_extern | intros _; apply keeps_logging_info].
Qed.

End FlowRules.

Section FlowOfScript.

Context {E Ranked : Type} (X : Externals (E := E) (Ranked := Ranked)).
Implicit Types (T : kind → list (event Ranked) → Prop).

Lemma never_returns_handle_help args :
  arg_h args = true → never_returns (handle_help X args).
Proof.
  intros Hh. unfold handle_help. rewrite Hh.
  apply never_returns_bind. intros _. apply never_returns_exit.
Qed.

Lemma never_returns_handle_install_dependencies args :
  arg_d args = true → never_returns (handle_install_dependencies X args).
Proof.
  intros Hd. unfold handle_install_dependencies. rewrite Hd.
  apply never_returns_bind. intros _. apply never_returns_exit.
Qed.

Lemma never_returns_handle_upgrade args latest_version :
  arg_u args = true → never_returns (handle_upgrade X args latest_version).
Proof.
  intros Hu. unfold handle_upgrade. rewrite Hu.
  apply never_returns_bind. intros newer.
  apply never_returns_bind. intros _. apply never_returns_exit.
Qed.

(** A family of trace properties that survives [sys.exit] and accepts every
    call the command line allows is kept by the whole script. *)
Lemma script_keeps T (argv : list string) (args : Args) :
  ends_ok T →
  (∀ c, allowed_call argv args c = true → call_ok T c) →
  keeps T (script X argv args).
Proof.
  intros Hends Hall. unfold script.
  apply (keeps_try T _ (λ e, "An unhandled exception occurred: " +:+ exn_msg e)); [done|].
  unfold main.
  apply keeps_bind; [by apply keeps_extern, Hall | intros _].
  apply keeps_bind; [apply keeps_logging_info | intros _].
  case_decide as Hargv.
  { apply keeps_bind; [apply keeps_print | intros _].
    apply keeps_bind; [|intros _; by apply keeps_exit].
    apply keeps_extern, Hall. unfold allowed_call.
    by rewrite bool_decide_eq_false_2 by (by intros ?). }
  assert (bool_decide (length argv ≠ 1%nat) = true) as Hruns
    by (by apply bool_decide_eq_true_2).
  apply keeps_bind; [apply keeps_logging_info | intros _].
  apply keeps_bind;
    [|intros _; apply keeps_bind; [apply keeps_logging_info | intros _; by apply keeps_exit]].
  apply (keeps_try T _ (λ e, "An unexpected error occurred: " +:+ exn_msg e)); [done|].
  apply keeps_bind;
    [apply keeps_check_latest_version, Hall; by unfold allowed_call
    | intros [latest_version version_message]].
  apply keeps_bind; [apply keeps_logging_info | intros _].
  destruct (arg_h args) eqn:Hh.
  { apply keeps_bind_never;
      [by apply never_returns_handle_help | by apply keeps_handle_help]. }
  apply keeps_bind; [by apply keeps_handle_help | intros _].
  destruct (arg_d args) eqn:Hd.
  { apply keeps_bind_never; [by apply never_returns_handle_install_dependencies|].
    apply keeps_handle_install_dependencies; [done|]. intros _.
    apply Hall. unfold allowed_call. by rewrite Hruns, Hh, Hd. }
  apply keeps_bind;
    [apply keeps_handle_install_dependencies; [done | by rewrite Hd] | intros _].
  destruct (arg_u args) eqn:Hu.
  { apply keeps_bind_never; [by apply never_returns_handle_upgrade|].
    apply keeps_handle_upgrade; [done | |]; intros _ **; apply Hall;
      unfold allowed_call; by rewrite Hruns, Hh, Hd, Hu. }
  apply keeps_bind;
    [apply keeps_handle_upgrade; [done | by rewrite Hu | by rewrite Hu] | intros _].
  assert (past_early_exits args = true) as Hpast
    by (unfold past_early_exits; by rewrite Hh, Hd, Hu).
  apply keeps_bind.
  { apply keeps_handle_config_update. intros Hc.
    split; intros **; apply Hall; unfold allowed_call; by rewrite Hruns, Hpast, Hc. }
  intros _.
  apply keeps_bind;
    [apply keeps_extern, Hall; unfold allowed_call; by rewrite Hruns, Hpast
    | intros autocrew].
  apply keeps_bind;
    [apply keeps_extern, Hall; unfold allowed_call; by rewrite Hruns, Hpast | intros _].
  match goal with |- keeps T (bind _ ?k) =>
    assert (∀ args',
              arg_a args' = arg_a args → arg_r args' = arg_r args →
              no_script_generation_params args' = no_script_generation_params args →
              keeps T (k args')) as Hrest
  end.
  { intros args' Ha Hr Hno.
    apply keeps_bind;
      [apply keeps_extern, Hall; unfold allowed_call; by rewrite Hruns, Hpast
      | intros config].
    apply keeps_bind;
      [apply keeps_pure_call, Hall; unfold allowed_call; by rewrite Hruns, Hpast
      | intros max_length].
    apply keeps_bind.
    - apply keeps_generate_and_run_scripts; [done | |].
      + intros Hgen g n. apply Hall. unfold allowed_call.
        rewrite Hno in Hgen. by rewrite Hruns, Hgen.
      + intros Hgen Hauto cmd. apply Hall. unfold allowed_call.
        rewrite Hno in Hgen. rewrite Ha in Hauto. by rewrite Hruns, Hgen, Hauto.
    - intros paths. apply keeps_handle_ranking; [done|].
      intros Hrank. rewrite Hr in Hrank.
      split; [|split]; intros **; apply Hall; unfold allowed_call;
        by rewrite Hruns, Hpast, Hrank. }
  destruct (Py.truthy_opt Py.truthy_str (overall_goal args)) eqn:Hgoal; simpl.
  - apply keeps_bind_ret. by apply Hrest.
  - eapply tr_ext; [intros w; symmetry; apply bind_assoc|].
    apply keeps_bind.
    + apply keeps_input, Hall. unfold allowed_call. by rewrite Hruns, Hpast, Hgoal.
    + intros goal. apply keeps_bind_ret. by apply Hrest.
Qed.

Lemma ends_ok_allowed_calls (argv : list string) (args : Args) :
  ends_ok (allowed_calls (Ranked := Ranked) argv args).
Proof. by intros tr. Qed.

Lemma call_ok_allowed_calls (argv : list string) (args : Args) (c : call Ranked) :
  allowed_call argv args c = true → call_ok (allowed_calls argv args) c.
Proof.
  intros Hc tr Htr. unfold allowed_calls in *.
  split; intros ?; apply Forall_app; split; try done; by repeat constructor.
Qed.

Lemma ends_ok_stops_at_failure : ends_ok (stops_at_failure (Ranked := Ranked)).
Proof.
  intros tr. split; [|done]. simpl. intros Htr.
  destruct tr as [|ev tr] using rev_ind; [done|].
  rewrite removelast_last. by apply Forall_app in Htr as [Htr _].
Qed.

Lemma call_ok_stops_at_failure (c : call Ranked) : call_ok stops_at_failure c.
Proof.
  intros tr Htr. simpl in *. split.
  - intros r. apply Forall_app. split; [done|]. by repeat constructor.
  - intros x. by rewrite removelast_last.
Qed.

(** X11.  A run makes only the calls its command line allows.  With one
    argument it runs [welcome.py] and nothing else; otherwise [-h] stops it
    after the version check, [-d] after the installation, [-u] after the
    upgrade; it parses and updates the configuration only under [-c],
    prompts only when no goal is given, generates only when none of [-c],
    [-h], [-d], [-u] is set, runs scripts only under [-a], and calls
    discovery, ranking and report saving only under [-r]. *)
Theorem run_makes_only_allowed_calls (argv : list string) (args : Args)
    (lines : list string) (e : E) :
  Forall (λ ev, allowed_call argv args (ev_call ev) = true)
         (trace (script X argv args (start lines e)).2).
Proof.
  apply (script_keeps (allowed_calls argv args) argv args
           (ends_ok_allowed_calls argv args) (call_ok_allowed_calls argv args)
           (start lines e)).
  constructor.
Qed.

(** X12.  A run stops at the first call that raises: no call of a run
    raised, except possibly the last one it made. *)
Theorem run_stops_at_first_failure (argv : list string) (args : Args)
    (lines : list string) (e : E) :
  Forall (λ ev, raised_event ev = false)
         (removelast (trace (script X argv args (start lines e)).2)).
Proof.
  pose proof (script_keeps stops_at_failure argv args ends_ok_stops_at_failure
                (λ c _, call_ok_stops_at_failure c) (start lines e)) as H.
  assert (script_never_returns :
            ∀ a, (script X argv args (start lines e)).1 ≠ Ret a).
  { apply (never_returns_try_except (main X argv args)).
    - apply main_never_returns.
    - intros x. apply exits_1_handler. }
  specialize (H (Forall_nil_2 _)). simpl in H.
  destruct (script X argv args (start lines e)) as [[a|x|c] w']; simpl in *;
    [by destruct (script_never_returns a) | done..].
Qed.

End FlowOfScript.

(** ** The order of the calls *)

Section Order.

Context {E Ranked : Type}.
Implicit Types (w : world E Ranked).
Implicit Types (tr : list (event Ranked)).

Local Abbreviation M := (M E Ranked).

Lemma phase_after_ge (ev : event Ranked) : (phase (ev_call ev) ≤ phase_after ev)%nat.
Proof. unfold phase_after. destruct (is_subprocess ev); lia. Qed.

Lemma phase_after_le (ev : event Ranked) : (phase_after ev ≤ 17)%nat.
Proof.
  unfold phase_after, is_subprocess. destruct ev as [[] r]; simpl; lia.
Qed.

Lemma in_order_from_app (n : nat) tr (l : list (event Ranked)) :
  in_order_from n (tr ++ l) = in_order_from n tr && in_order_from (next_phase n tr) l.
Proof.
  revert n; induction tr as [|ev tr IH]; intros n; simpl; [done|].
  rewrite IH. by rewrite andb_assoc.
Qed.

Lemma next_phase_app (n : nat) tr (l : list (event Ranked)) :
  next_phase n (tr ++ l) = next_phase (next_phase n tr) l.
Proof. revert n; induction tr as [|ev tr IH]; intros n; simpl; [done|]. apply IH. Qed.

Lemma before_phase_mono (k k' : nat) tr :
  (k ≤ k')%nat → before_phase k tr → before_phase k' tr.
Proof. intros Hk [Ho Hn]. split; [done | lia]. Qed.

Lemma before_phase_snoc (k : nat) tr (ev : event Ranked) :
  before_phase k tr → (k ≤ phase (ev_call ev))%nat →
  before_phase (phase_after ev) (tr ++ [ev]).
Proof.
  intros [Ho Hn] Hk. split.
  - rewrite in_order_from_app, Ho. simpl. rewrite andb_true_r.
    apply Nat.leb_le. lia.
  - rewrite next_phase_app. simpl. lia.
Qed.

Lemma phase_post_mono (k k' : nat) (κ : kind) tr :
  (k ≤ k')%nat → phase_post k κ tr → phase_post k' κ tr.
Proof. intros Hk. destruct κ; simpl; [by apply before_phase_mono | done..]. Qed.

(** From calls before phase [k], the piece [m] leaves calls before phase
    [k'] when it returns, and an ordered trace in any case. *)
Lemma ord_weaken {A} (k0 k k' k1 : nat) (m : M A) :
  (k0 ≤ k)%nat → (k' ≤ k1)%nat →
  tr_triple (before_phase k) m (phase_post k') →
  tr_triple (before_phase k0) m (phase_post k1).
Proof.
  intros H0 H1 Hm w Hw. apply (phase_post_mono k'); [done|].
  apply Hm. by apply (before_phase_mono k0).
Qed.

Lemma ord_bind {A B} (k k1 k2 : nat) (m : M A) (f : A → M B) :
  tr_triple (before_phase k) m (phase_post k1) →
  (∀ a, tr_triple (before_phase k1) (f a) (phase_post k2)) →
  tr_triple (before_phase k) (bind m f) (phase_post k2).
Proof. intros Hm Hf. by apply (tr_bind _ _ (phase_post k1)). Qed.

Lemma ord_skip {A} (k : nat) (a : A) :
  (k ≤ 17)%nat → tr_triple (before_phase k) (ret a : M A) (phase_post k).
Proof. intros _. by apply tr_ret. Qed.

Lemma ord_logging_info (k : nat) (msg : string) :
  tr_triple (before_phase k) (logging_info msg : M unit) (phase_post k).
Proof. by apply tr_logging_info. Qed.

Lemma ord_print (k : nat) (msg : string) :
  tr_triple (before_phase k) (print msg : M unit) (phase_post k).
Proof. by apply tr_print. Qed.

Lemma ord_exit {A} (k k' : nat) (c : Z) :
  (k ≤ 17)%nat → tr_triple (before_phase k) (sys_exit c : M A) (phase_post k').
Proof. intros Hk. apply tr_exit. intros tr. by apply before_phase_mono. Qed.

Lemma ord_extern {A} (k : nat) (c : call Ranked) (summary : A → reply Ranked)
    (op : E → result A * E) :
  (k ≤ phase c)%nat →
  tr_triple (before_phase k) (extern c summary op) (phase_post (S (phase c))).
Proof.
  intros Hk. apply tr_extern; intros tr ? Htr; simpl.
  - apply (before_phase_mono (phase_after (Event c (Ok r)))).
    + unfold phase_after. simpl. destruct (is_subprocess _); lia.
    + by apply (before_phase_snoc k).
  - apply (before_phase_mono (phase_after (Event c (Raised x)))); [apply phase_after_le|].
    by apply (before_phase_snoc k).
Qed.

Lemma ord_input (k : nat) (prompt : string) :
  (k ≤ 9)%nat → tr_triple (before_phase k) (input prompt : M string) (phase_post 10).
Proof.
  intros Hk. apply tr_input; intros tr ? Htr; simpl.
  - by apply (before_phase_snoc k tr (Event (CInput prompt) (Ok r))).
  - apply (before_phase_mono 10); [lia|].
    by apply (before_phase_snoc k tr (Event (CInput prompt) (Raised x))).
Qed.

(** Running a script leaves room for the next script. *)
Lemma ord_subprocess (k : nat) (cmd : list string) (op : E → result Z * E) :
  (k ≤ 13)%nat →
  tr_triple (before_phase k) (extern (CSubprocessRun cmd) RInt op : M Z) (phase_post 13).
Proof.
  intros Hk. apply tr_extern; intros tr ? Htr; simpl.
  - by apply (before_phase_snoc k tr (Event (CSubprocessRun cmd) (Ok r))).
  - apply (before_phase_mono 13); [lia|].
    by apply (before_phase_snoc k tr (Event (CSubprocessRun cmd) (Raised x))).
Qed.

Lemma ord_try {A} (k k' : nat) (body : M A) (msg : exn → string) :
  tr_triple (before_phase k) body (phase_post k') →
  tr_triple (before_phase k)
    (try_except body (λ e, bind (logging_exception (msg e)) (λ _, sys_exit 1)))
    (phase_post k').
Proof.
  intros Hbody. apply (tr_try _ _ (phase_post k')); [done | | done..].
  intros e. by apply tr_handler.
Qed.

Context (X : Externals (E := E) (Ranked := Ranked)).
Implicit Types (autocrew : AutoCrew (E := E) (Ranked := Ranked)).

Lemma ord_check_latest_version :
  tr_triple (before_phase 1) (check_latest_version X) (phase_post 2).
Proof.
  intros w Hw. destruct (check_latest_version_returns X w) as (version & e' & ->).
  simpl.
  by apply (before_phase_snoc 1 _ (Event CCheckLatestVersion (Ok (RStr version.1)))).
Qed.

Lemma ord_handle_help args : tr_triple (before_phase 2) (handle_help X args) (phase_post 2).
Proof.
  unfold handle_help. destruct (arg_h args); [|by apply ord_skip; lia].
  eapply ord_bind; [apply ord_print | intros _; apply ord_exit; lia].
Qed.

Lemma ord_handle_install_dependencies args :
  tr_triple (before_phase 2) (handle_install_dependencies X args) (phase_post 3).
Proof.
  unfold handle_install_dependencies.
  destruct (arg_d args); [|apply (ord_weaken 2 2 2 3); [lia | lia | apply ord_skip; lia]].
  eapply ord_bind; [apply ord_extern; simpl; lia | intros _; apply ord_exit; simpl; lia].
Qed.

Lemma ord_handle_upgrade args latest_version :
  tr_triple (before_phase 3) (handle_upgrade X args latest_version) (phase_post 5).
Proof.
  unfold handle_upgrade.
  destruct (arg_u args); [|apply (ord_weaken 3 3 3 5); [lia | lia | apply ord_skip; lia]].
  eapply ord_bind; [apply ord_extern; simpl; lia | intros newer]. simpl.
  apply (ord_bind 4 5 5); [|intros _; apply ord_exit; lia].
  destruct newer;
    [|apply (ord_weaken 4 4 4 5); [lia | lia | apply ord_logging_info]].
  unfold upgrade_autocrew.
  eapply ord_bind; [apply ord_extern; simpl; lia | intros _]. simpl.
  eapply ord_bind; [apply ord_logging_info | intros _].
  eapply ord_bind; [apply ord_print | intros _; apply ord_exit; lia].
Qed.

Lemma ord_handle_config_update args :
  tr_triple (before_phase 5) (handle_config_update X args) (phase_post 7).
Proof.
  unfold handle_config_update.
  destruct (arg_c args) as [[|param params]|];
    try (apply (ord_weaken 5 5 5 7); [lia | lia | apply ord_skip; lia]).
  eapply ord_bind; [apply ord_extern; simpl; lia | intros config_dict]. simpl.
  apply ord_extern. simpl. lia.
Qed.

Lemma ord_generate_and_run_scripts args autocrew goal :
  tr_triple (before_phase 12) (generate_and_run_scripts X args autocrew goal)
            (phase_post 14).
Proof.
  unfold generate_and_run_scripts.
  destruct (negb (no_script_generation_params args));
    [|apply (ord_weaken 12 12 12 14); [lia | lia | apply ord_skip; lia]].
  apply (ord_try 12 14 _ (λ _, "An error occurred during script generation.")).
  eapply ord_bind; [apply ord_logging_info | intros _].
  eapply ord_bind; [apply ord_extern; simpl; lia | intros paths]. simpl.
  apply (ord_bind 13 13 14);
    [|intros _; apply (ord_weaken 13 13 13 14); [lia | lia | apply ord_skip; lia]].
  destruct (arg_a args); [|apply ord_skip; lia].
  induction paths as [|path paths IH]; simpl; [apply ord_skip; lia|].
  apply (ord_bind 13 13 13); [|intros _; apply IH].
  apply (ord_bind 13 13 13); [apply ord_subprocess; lia | intros _; apply ord_skip; lia].
Qed.

Lemma ord_handle_ranking args autocrew goal paths :
  tr_triple (before_phase 14) (handle_ranking args autocrew goal paths) (phase_post 17).
Proof.
  unfold handle_ranking.
  destruct (arg_r args); [|apply (ord_weaken 14 14 14 17); [lia | lia | apply ord_skip; lia]].
  apply (ord_try 14 17 _ (λ _, "An error occurred during script ranking.")).
  eapply ord_bind; [apply ord_logging_info | intros _].
  apply (ord_bind 14 15 17).
  { destruct (negb (Py.truthy_list paths));
      [apply ord_extern; simpl; lia
      |apply (ord_weaken 14 14 14 15); [lia | lia | apply ord_skip; lia]]. }
  intros found.
  apply (ord_bind 15 15 17).
  { destruct (negb (Py.truthy_list found)); [|apply ord_skip; lia].
    eapply ord_bind; [by apply tr_logging_error | intros _; apply ord_exit; lia]. }
  intros _.
  eapply ord_bind; [apply ord_extern; simpl; lia | intros [ranked summary]]. simpl.
  eapply ord_bind; [apply ord_logging_info | intros _].
  eapply ord_bind; [apply ord_extern; simpl; lia | intros _]. simpl.
  apply ord_logging_info.
Qed.

Lemma ord_script (argv : list string) (args : Args) :
  tr_triple (before_phase 0) (script X argv args) (phase_post 17).
Proof.
  unfold script.
  apply (ord_try 0 17 _ (λ e, "An unhandled exception occurred: " +:+ exn_msg e)).
  unfold main.
  eapply ord_bind; [apply ord_extern; simpl; lia | intros _]. simpl.
  eapply ord_bind; [apply ord_logging_info | intros _].
  case_decide as Hargv.
  { eapply ord_bind; [apply ord_print | intros _].
    eapply ord_bind; [apply ord_subprocess; lia | intros _; apply ord_exit; lia]. }
  eapply ord_bind; [apply ord_logging_info | intros _].
  apply (ord_bind 1 17 17);
    [|intros _; eapply ord_bind; [apply ord_logging_info | intros _; apply ord_exit; lia]].
  apply (ord_try 1 17 _ (λ e, "An unexpected error occurred: " +:+ exn_msg e)).
  eapply ord_bind; [apply ord_check_latest_version | intros [latest_version message]].
  eapply ord_bind; [apply ord_logging_info | intros _].
  eapply ord_bind; [apply ord_handle_help | intros _].
  eapply ord_bind; [apply ord_handle_install_dependencies | intros _].
  eapply ord_bind; [apply ord_handle_upgrade | intros _].
  eapply ord_bind; [apply ord_handle_config_update | intros _].
  eapply ord_bind; [apply ord_extern; simpl; lia | intros autocrew]. simpl.
  eapply ord_bind; [apply ord_extern; simpl; lia | intros _]. simpl.
  apply (ord_bind 9 10 17).
  { destruct (negb (Py.truthy_opt Py.truthy_str (overall_goal args)));
      [|apply (ord_weaken 9 9 9 10); [lia | lia | apply ord_skip; lia]].
    eapply ord_bind; [apply ord_input; lia | intros goal; apply ord_skip; lia]. }
  intros args'.
  eapply ord_bind; [apply ord_extern; simpl; lia | intros config]. simpl.
  eapply ord_bind; [apply ord_extern; simpl; lia | intros max_length]. simpl.
  eapply ord_bind; [apply ord_generate_and_run_scripts | intros paths].
  apply ord_handle_ranking.
Qed.

(** X13.  The calls of a run come in the order of the main flow: logging
    setup, version check, installation, version comparison, upgrade,
    parsing and update of the configuration, [AutoCrew()], the log of its
    configuration, the prompt for the goal, the reading of [config.ini] and
    of the maximum length, generation, the scripts run under [-a],
    discovery, ranking, report saving; each of them is made at most once,
    the scripts apart. *)
Theorem run_calls_in_order (argv : list string) (args : Args)
    (lines : list string) (e : E) :
  in_order_from 0 (trace (script X argv args (start lines e)).2) = true.
Proof.
  pose proof (ord_script argv args (start lines e) (conj eq_refl (Nat.le_refl 0))) as H.
  destruct (script X argv args (start lines e)) as [[a|x|c] w']; simpl in *;
    by destruct H.
Qed.

Lemma in_order_from_lower (n : nat) tr :
  in_order_from n tr = true → Forall (λ ev, (n ≤ phase (ev_call ev))%nat) tr.
Proof.
  revert n; induction tr as [|ev tr IH]; intros n; simpl; [constructor|].
  intros [Hn Htr]%andb_true_iff. apply Nat.leb_le in Hn.
  constructor; [done|].
  apply IH in Htr. eapply Forall_impl; [exact Htr|]. simpl.
  intros ev' Hev'. pose proof (phase_after_ge ev). lia.
Qed.

Lemma filter_phase_nil (p : nat) tr :
  Forall (λ ev, (p < phase (ev_call ev))%nat) tr →
  filter (λ ev, phase (ev_call ev) = p) tr = [].
Proof.
  induction 1 as [|ev tr Hev Htr IH]; [done|].
  rewrite filter_cons. case_decide; [lia | done].
Qed.

Lemma in_order_once (n p : nat) tr :
  p ≠ 13%nat → in_order_from n tr = true →
  (length (filter (λ ev, phase (ev_call ev) = p) tr) ≤ 1)%nat.
Proof.
  intros Hp. revert n; induction tr as [|ev tr IH]; intros n; simpl; [lia|].
  intros [Hn Htr]%andb_true_iff.
  rewrite filter_cons. case_decide as Hev; [|by eapply IH].
  simpl. apply in_order_from_lower in Htr.
  rewrite filter_phase_nil; [simpl; lia|].
  eapply Forall_impl; [exact Htr|]. simpl. intros ev' Hev'.
  assert (phase_after ev = S p) as Hafter.
  { unfold phase_after, is_subprocess. destruct ev as [[] r]; simpl in *; congruence. }
  lia.
Qed.

(** X14.  In a run, [generate_scripts], [get_existing_scripts],
    [rank_crews] and [save_ranking_output] are each called at most once. *)
Theorem run_calls_core_at_most_once (argv : list string) (args : Args)
    (lines : list string) (e : E) :
  let tr := trace (script X argv args (start lines e)).2 in
  (length (filter (λ ev, is_generation ev = true) tr) ≤ 1)%nat
  ∧ (length (filter (λ ev, is_discovery ev = true) tr) ≤ 1)%nat
  ∧ (length (filter (λ ev, is_ranking ev = true) tr) ≤ 1)%nat
  ∧ (length (filter (λ ev, is_save ev = true) tr) ≤ 1)%nat.
Proof.
  simpl.
  assert (in_order_from 0 (trace (script X argv args (start lines e)).2) = true) as Ho.
  { pose proof (ord_script argv args (start lines e) (conj eq_refl (Nat.le_refl 0))) as H.
    destruct (script X argv args (start lines e)) as [[a|x|c] w']; simpl in *;
      by destruct H. }
  repeat split.
  - rewrite (list_filter_iff _ (λ ev, phase (ev_call ev) = 12%nat));
      [by eapply in_order_once|].
    intros [[] r]; cbn; split; intros; first [done | lia].
  - rewrite (list_filter_iff _ (λ ev, phase (ev_call ev) = 14%nat));
      [by eapply in_order_once|].
    intros [[] r]; cbn; split; intros; first [done | lia].
  - rewrite (list_filter_iff _ (λ ev, phase (ev_call ev) = 15%nat));
      [by eapply in_order_once|].
    intros [[] r]; cbn; split; intros; first [done | lia].
  - rewrite (list_filter_iff _ (λ ev, phase (ev_call ev) = 16%nat));
      [by eapply in_order_once|].
    intros [[] r]; cbn; split; intros; first [done | lia].
Qed.

End Order.

(** ** Early exits of the main flow *)

Section EarlyExits.

Context {E Ranked : Type} (X : Externals (E := E) (Ranked := Ranked)).


(** Runs the script up to the version check, which is kept folded. *)
Ltac run_to_version_check Hsetup Hargv :=
  unfold script, main, try_except, bind, extern, logging_info,
    log_command_line_arguments, add_event, add_log, set_env;
  simpl; rewrite Hsetup; simpl;
  rewrite (decide_False (P := _ = 1%nat)) by exact Hargv; simpl;
  match goal with
  | |- context [check_latest_version X ?w0] =>
      let version := fresh "version" in
      let e2 := fresh "e2" in
      let Hc := fresh "Hcheck" in
      destruct (check_latest_version_returns X w0) as (version & e2 & Hc);
      rewrite Hc; unfold add_event, set_env; simpl
  end.

(** X16.  [-h] wins over every other option: after the setup of logging and
    the version check the help text is printed and the process exits with
    status 0, without a further call. *)
Theorem help_stops_after_version_check (argv : list string) (args : Args)
    (lines : list string) (e e1 : E)
    (Hargv : length argv ≠ 1%nat)
    (Hh : arg_h args = true)
    (Hsetup : setup_logging X e = (Ok tt, e1)) :
  ∃ version e2,
    script X argv args (start lines e)
    = (Exit 0,
       World lines [help_text X]
             [(INFO, "Starting AutoCrew script");
              (INFO, "Command-line arguments: " +:+ Py.join " " (tail argv));
              (INFO, generate_startup_message version.1 version.2)]
             [Event CSetupLogging (Ok RNone);
              Event CCheckLatestVersion (Ok (RStr version.1))]
             e2).
Proof.
  run_to_version_check Hsetup Hargv.
  destruct version as [latest_version version_message]. simpl.
  unfold handle_help, bind, print, sys_exit. rewrite Hh. simpl.
  by exists (latest_version, version_message), e2.
Qed.

(** X17.  Without command-line parameters the script runs [welcome.py] and
    exits with status 0; the parsed arguments play no part. *)
Theorem no_parameters_runs_welcome (argv : list string) (args : Args)
    (lines : list string) (e e1 e2 : E) (code : Z)
    (Hargv : length argv = 1%nat)
    (Hsetup : setup_logging X e = (Ok tt, e1))
    (Hwelcome : subprocess_run X ["python3"; "welcome.py"] e1 = (Ok code, e2)) :
  script X argv args (start lines e)
  = (Exit 0,
     World lines
           [Py.nl +:+ "Welcome to AutoCrew!" +:+ Py.nl +:+ "Let's get started." +:+ Py.nl]
           [(INFO, "Starting AutoCrew script")]
           [Event CSetupLogging (Ok RNone);
            Event (CSubprocessRun ["python3"; "welcome.py"]) (Ok (RInt code))]
           e2).
Proof.
  unfold script, main, try_except, bind, extern, logging_info, print, sys_exit,
    add_event, add_log, set_env.
  simpl. rewrite Hsetup. simpl.
  rewrite (decide_True (P := _ = 1%nat)) by exact Hargv. simpl.
  by rewrite Hwelcome.
Qed.

(** X18.  A failed version check never leads to an upgrade: when the
    release page cannot be reached, [-u] compares the current version with
    itself, reports that there is nothing new and exits with status 0. *)
Theorem failed_version_check_never_upgrades (argv : list string) (args : Args)
    (lines : list string) (e e1 e2 : E) (x : exn)
    (Hargv : length argv ≠ 1%nat)
    (Hh : arg_h args = false) (Hd : arg_d args = false) (Hu : arg_u args = true)
    (Hsetup : setup_logging X e = (Ok tt, e1))
    (Hfetch : fetch_latest_tag X e1 = (Raised x, e2))
    (Hsame : version_gt X AUTOCREW_VERSION AUTOCREW_VERSION = Ok false) :
  ∃ version_message,
    script X argv args (start lines e)
    = (Exit 0,
       World lines []
             [(INFO, "Starting AutoCrew script");
              (INFO, "Command-line arguments: " +:+ Py.join " " (tail argv));
              (INFO, generate_startup_message AUTOCREW_VERSION version_message);
              (INFO, "No new version available or you are already running the latest version.")]
             [Event CSetupLogging (Ok RNone);
              Event CCheckLatestVersion (Ok (RStr AUTOCREW_VERSION));
              Event (CVersionNewer AUTOCREW_VERSION AUTOCREW_VERSION) (Ok (RBool false))]
             e2).
Proof.
  unfold script, main, try_except, bind, extern, logging_info,
    log_command_line_arguments, add_event, add_log, set_env.
  simpl. rewrite Hsetup. simpl.
  rewrite (decide_False (P := _ = 1%nat)) by exact Hargv. simpl.
  unfold check_latest_version, try_except, bind, inner, returned, ret, add_event, set_env.
  simpl. rewrite Hfetch. simpl.
  destruct (is_RequestException x); [|destruct (is_JSONDecodeError x)]; simpl;
    unfold handle_help, handle_install_dependencies, handle_upgrade, pure_call, extern,
      bind, ret, logging_info, sys_exit, add_event, add_log, set_env;
    rewrite Hh, Hd, Hu; simpl; rewrite Hsame; simpl; by eexists.
Qed.

(** X19.  A parameter of [-c] that does not read SECTION.KEY=VALUE ends the
    run with status 1 right after the version check: the configuration file
    is not touched and [AutoCrew()] is never built. *)
Theorem malformed_config_parameter_stops_run (argv : list string) (args : Args)
    (lines : list string) (e e1 : E) (good : list string) (bad : string)
    (rest : list string)
    (Hargv : length argv ≠ 1%nat)
    (Hh : arg_h args = false) (Hd : arg_d args = false) (Hu : arg_u args = false)
    (Hc : arg_c args = Some (good ++ bad :: rest))
    (Hgood : Forall well_formed_param good) (Hbad : ¬ well_formed_param bad)
    (Hsetup : setup_logging X e = (Ok tt, e1)) :
  ∃ version e2,
    script X argv args (start lines e)
    = (Exit 1,
       World lines []
             [(INFO, "Starting AutoCrew script");
              (INFO, "Command-line arguments: " +:+ Py.join " " (tail argv));
              (INFO, generate_startup_message version.1 version.2);
              (ERROR, "An unexpected error occurred: "
                      +:+ "Invalid config parameter format: " +:+ bad)]
             [Event CSetupLogging (Ok RNone);
              Event CCheckLatestVersion (Ok (RStr version.1));
              Event (CParseConfigParameters (good ++ bad :: rest))
                    (Raised (Exn ArgumentTypeError
                               ("Invalid config parameter format: " +:+ bad)))]
             e2).
Proof.
  run_to_version_check Hsetup Hargv.
  destruct version as [latest_version version_message]. simpl.
  unfold handle_help, handle_install_dependencies, handle_upgrade, handle_config_update,
    bind, ret.
  rewrite Hh, Hd, Hu, Hc. simpl.
  pose proof (parse_first_malformed good bad rest Hgood Hbad) as Hparse.
  destruct (good ++ bad :: rest) as [|param params] eqn:Hparams.
  { by destruct good. }
  unfold pure_call, extern, logging_exception, sys_exit, add_event, add_log, set_env.
  cbv beta. rewrite Hparse. simpl.
  by exists (latest_version, version_message), e2.
Qed.

End EarlyExits.

Lemma help_stops_after_version_check_witness :
  ∃ version e2,
    script Run.X ["autocrew.py"; "-h"; "-d"; "-u"; "-r"; "Launch a product"]
      (help_and_more "Launch a product") (start [] Run.empty_store)
    = (Exit 0,
       World [] [help_text Run.X]
             [(INFO, "Starting AutoCrew script");
              (INFO, "Command-line arguments: "
                     +:+ Py.join " " (tail ["autocrew.py"; "-h"; "-d"; "-u"; "-r";
                                            "Launch a product"]));
              (INFO, generate_startup_message version.1 version.2)]
             [Event CSetupLogging (Ok RNone);
              Event CCheckLatestVersion (Ok (RStr version.1))]
             e2).
Proof.
  apply (help_stops_after_version_check Run.X
           ["autocrew.py"; "-h"; "-d"; "-u"; "-r"; "Launch a product"]
           (help_and_more "Launch a product") [] Run.empty_store Run.empty_store).
  - discriminate.
  - reflexivity.
  - reflexivity.
Defined.

Lemma no_parameters_runs_welcome_witness :
  script Run.X ["autocrew.py"] (help_and_more "ignored") (start [] Run.empty_store)
  = (Exit 0,
     World []
           [Py.nl +:+ "Welcome to AutoCrew!" +:+ Py.nl +:+ "Let's get started." +:+ Py.nl]
           [(INFO, "Starting AutoCrew script")]
           [Event CSetupLogging (Ok RNone);
            Event (CSubprocessRun ["python3"; "welcome.py"]) (Ok (RInt 0))]
           Run.empty_store).
Proof.
  apply (no_parameters_runs_welcome Run.X ["autocrew.py"] (help_and_more "ignored") []
           Run.empty_store Run.empty_store Run.empty_store 0); reflexivity.
Defined.

Lemma failed_version_check_never_upgrades_witness :
  ∃ version_message,
    script offline ["autocrew.py"; "-u"] upgrade_only (start [] Run.empty_store)
    = (Exit 0,
       World [] []
             [(INFO, "Starting AutoCrew script");
              (INFO, "Command-line arguments: " +:+ Py.join " " (tail ["autocrew.py"; "-u"]));
              (INFO, generate_startup_message AUTOCREW_VERSION version_message);
              (INFO, "No new version available or you are already running the latest version.")]
             [Event CSetupLogging (Ok RNone);
              Event CCheckLatestVersion (Ok (RStr AUTOCREW_VERSION));
              Event (CVersionNewer AUTOCREW_VERSION AUTOCREW_VERSION) (Ok (RBool false))]
             Run.empty_store).
Proof.
  apply (failed_version_check_never_upgrades offline ["autocrew.py"; "-u"] upgrade_only []
           Run.empty_store Run.empty_store Run.empty_store
           (Exn RequestException "connection refused"));
    first [discriminate | reflexivity].
Defined.

Lemma malformed_config_parameter_stops_run_witness :
  ∃ version e2,
    script Run.X ["autocrew.py"; "-c"; "llm_endpoint"; "-r"; "Launch a product"]
      (Run.config_and_rank "llm_endpoint" "Launch a product") (start [] Run.empty_store)
    = (Exit 1,
       World [] []
             [(INFO, "Starting AutoCrew script");
              (INFO, "Command-line arguments: "
                     +:+ Py.join " " (tail ["autocrew.py"; "-c"; "llm_endpoint"; "-r";
                                            "Launch a product"]));
              (INFO, generate_startup_message version.1 version.2);
              (ERROR, "An unexpected error occurred: "
                      +:+ "Invalid config parameter format: " +:+ "llm_endpoint")]
             [Event CSetupLogging (Ok RNone);
              Event CCheckLatestVersion (Ok (RStr version.1));
              Event (CParseConfigParameters ([] ++ "llm_endpoint" :: []))
                    (Raised (Exn ArgumentTypeError
                               ("Invalid config parameter format: " +:+ "llm_endpoint")))]
             e2).
Proof.
  apply (malformed_config_parameter_stops_run Run.X
           ["autocrew.py"; "-c"; "llm_endpoint"; "-r"; "Launch a product"]
           (Run.config_and_rank "llm_endpoint" "Launch a product") []
           Run.empty_store Run.empty_store [] "llm_endpoint" []).
  - discriminate.
  - reflexivity.
  - reflexivity.
  - reflexivity.
  - reflexivity.
  - constructor.
  - apply not_well_formed_without_equals. reflexivity.
  - reflexivity.
Defined.

(** ** The scripts run under [-a] *)

Section AutoRun.

Context {E Ranked : Type} (X : Externals (E := E) (Ranked := Ranked)).
Implicit Types (autocrew : AutoCrew (E := E) (Ranked := Ranked)).
Implicit Types (w : world E Ranked).

Lemma commands_app (a b : list (event Ranked)) :
  commands (a ++ b) = commands a ++ commands b.
Proof. unfold commands. apply omap_app. Qed.

Lemma run_scripts_commands (paths : list string) w :
  (∀ cmd e, ∃ code e', subprocess_run X cmd e = (Ok code, e')) →
  ∃ w',
    for_each paths (λ path,
      bind (extern (CSubprocessRun [sys_executable X; Py.replace ".csv" ".py" path])
                   RInt
                   (subprocess_run X [sys_executable X; Py.replace ".csv" ".py" path]))
           (λ _, ret tt)) w
    = (Ret tt, w')
    ∧ commands (trace w')
      = commands (trace w)
          ++ ((λ path, [sys_executable X; Py.replace ".csv" ".py" path]) <$> paths)
    ∧ log w' = log w ∧ stdout w' = stdout w.
Proof.
  intros Hrun. revert w; induction paths as [|path paths IH]; intros w; simpl.
  - exists w. by rewrite app_nil_r.
  - unfold bind at 1. unfold bind at 1. unfold extern at 1, ret at 1.
    destruct (Hrun [sys_executable X; Py.replace ".csv" ".py" path] (env w))
      as (code & e' & ->). simpl.
    match goal with |- context [for_each paths ?f ?w0] =>
      destruct (IH w0) as (w' & Hloop & Hcmds & Hlog & Hout) end.
    exists w'. split; [exact Hloop|]. split; [|done].
    rewrite Hcmds. simpl. rewrite commands_app. simpl. by rewrite <- app_assoc.
Qed.

(** X20.  Under [-a], when generation succeeds, every generated candidate is
    run once, in the order in which [generate_scripts] returned the paths,
    by the running interpreter on the path with every [.csv] replaced by
    [.py]; the return codes of the scripts are not looked at, and the step
    returns the generated paths. *)
Theorem generated_scripts_run_in_order args autocrew goal w (paths : list string) (e1 : E)
    (Hgenerates : no_script_generation_params args = false)
    (Hauto : arg_a args = true)
    (Hpaths : generate_scripts autocrew goal (num_scripts_to_generate args) (env w)
              = (Ok paths, e1))
    (Hrun : ∀ cmd e, ∃ code e', subprocess_run X cmd e = (Ok code, e')) :
  ∃ w',
    generate_and_run_scripts X args autocrew goal w = (Ret paths, w')
    ∧ commands (trace w')
      = commands (trace w)
          ++ ((λ path, [sys_executable X; Py.replace ".csv" ".py" path]) <$> paths).
Proof.
  unfold generate_and_run_scripts. rewrite Hgenerates, Hauto. simpl.
  unfold try_except, bind at 1, logging_info. simpl.
  unfold bind at 1, extern at 1. simpl. rewrite Hpaths. simpl.
  unfold bind at 1.
  match goal with |- context [for_each paths ?f ?w0] =>
    destruct (run_scripts_commands paths w0 Hrun) as (w' & Hloop & Hcmds & _) end.
  rewrite Hloop. simpl. exists w'. split; [done|].
  rewrite Hcmds. simpl. rewrite commands_app. simpl. by rewrite app_nil_r.
Qed.

End AutoRun.

Lemma generated_scripts_run_in_order_witness :
  ∃ w',
    generate_and_run_scripts Run.X (auto_run 2 "Launch a product") Core.autocrew
      "Launch a product" (start [] Run.empty_store)
    = (Ret ["scripts/Launch a product-1.csv"; "scripts/Launch a product-2.csv"], w')
    ∧ commands (trace w')
      = commands (trace (start (Ranked := list ranked_entry) [] Run.empty_store))
          ++ ((λ path, [sys_executable Run.X; Py.replace ".csv" ".py" path])
                <$> ["scripts/Launch a product-1.csv"; "scripts/Launch a product-2.csv"]).
Proof.
  apply (generated_scripts_run_in_order Run.X (auto_run 2 "Launch a product")
           Core.autocrew "Launch a product" (start [] Run.empty_store)
           ["scripts/Launch a product-1.csv"; "scripts/Launch a product-2.csv"]
           (Core.Outside
              [Core.Artifact "Launch a product" 2 "1";
               Core.Artifact "Launch a product" 1 "a crew"] [] [] true)).
  - reflexivity.
  - reflexivity.
  - reflexivity.
  - intros cmd o. by exists 0, o.
Defined.

(** ** One identifier for a run *)

Section Identifier.

Context {E Ranked : Type} (X : Externals (E := E) (Ranked := Ranked)).
Implicit Types (autocrew : AutoCrew (E := E) (Ranked := Ranked)).
Implicit Types (tr : list (event Ranked)).

Local Abbreviation M := (M E Ranked).

Lemma ends_ok_no_core : ends_ok (no_core_family (Ranked := Ranked)).
Proof. by intros tr. Qed.

Lemma call_ok_no_core (c : call Ranked) :
  core_call c = false → call_ok no_core_family c.
Proof.
  intros Hc tr Htr. unfold no_core_family, no_core in *.
  split; intros ?; apply Forall_app; split; try done; by repeat constructor.
Qed.

Lemma ends_ok_uses (id : string) (full : option string) (verbose : bool) :
  ends_ok (uses_family (Ranked := Ranked) id full verbose).
Proof. by intros tr. Qed.

Lemma call_ok_uses (id : string) (full : option string) (verbose : bool)
    (c : call Ranked) :
  (∀ r, uses_identifier id full verbose (Event c r)) →
  call_ok (uses_family id full verbose) c.
Proof.
  intros Hc tr Htr. unfold uses_family in *.
  split; intros ?; apply Forall_app; split; try done; by repeat constructor.
Qed.

Lemma no_core_uses (id : string) (full : option string) (verbose : bool) tr :
  no_core tr → Forall (uses_identifier id full verbose) tr.
Proof.
  unfold no_core. intros Htr. eapply Forall_impl; [exact Htr|].
  intros [c r]. unfold uses_identifier. simpl. by destruct c.
Qed.

(** The generation step hands [generate_scripts] the identifier it was
    given. *)
Lemma uses_generate_and_run_scripts args autocrew (goal : string) (full : option string)
    (verbose : bool) :
  keeps (uses_family goal full verbose) (generate_and_run_scripts X args autocrew goal).
Proof.
  unfold generate_and_run_scripts.
  destruct (no_script_generation_params args); [apply keeps_ret|]. simpl.
  apply (keeps_try _ _ (λ _, "An error occurred during script generation."));
    [apply ends_ok_uses|].
  apply keeps_bind; [apply keeps_logging_info | intros _].
  apply keeps_bind; [by apply keeps_extern, call_ok_uses | intros paths].
  apply keeps_bind; [|intros _; apply keeps_ret].
  destruct (arg_a args); [|apply keeps_ret].
  apply keeps_for_each. intros path.
  apply keeps_bind; [by apply keeps_extern, call_ok_uses | intros _; apply keeps_ret].
Qed.

(** The ranking step hands discovery and report saving the identifier, and
    the evaluator the goal and the verbosity of the command line. *)
Lemma uses_handle_ranking args autocrew (goal : string) (paths : list string) :
  keeps (uses_family goal (overall_goal args) (arg_v args))
        (handle_ranking args autocrew goal paths).
Proof.
  unfold handle_ranking. destruct (arg_r args); [|apply keeps_ret].
  apply (keeps_try _ _ (λ _, "An error occurred during script ranking."));
    [apply ends_ok_uses|].
  apply keeps_bind; [apply keeps_logging_info | intros _].
  apply keeps_bind.
  { destruct (negb (Py.truthy_list paths));
      [by apply keeps_extern, call_ok_uses | apply keeps_ret]. }
  intros found.
  apply keeps_bind.
  { destruct (negb (Py.truthy_list found)); [|apply keeps_ret].
    apply keeps_bind; [by apply tr_logging_error | intros _].
    apply keeps_exit, ends_ok_uses. }
  intros _.
  apply keeps_bind; [by apply keeps_extern, call_ok_uses | intros [ranked summary]].
  apply keeps_bind; [apply keeps_logging_info | intros _].
  apply keeps_bind; [by apply keeps_extern, call_ok_uses | intros _].
  apply keeps_logging_info.
Qed.

(** What a trace holds stays on it when calls are added. *)
Lemma goal_of_run_app args tr tr' (full : string) :
  goal_of_run args tr full → goal_of_run args (tr ++ tr') full.
Proof.
  unfold goal_of_run. destruct (Py.truthy_opt Py.truthy_str (overall_goal args)); [done|].
  intros H. apply elem_of_app. by left.
Qed.

Lemma configured_length_app tr tr' (max_length : Z) :
  configured_length tr max_length → configured_length (tr ++ tr') max_length.
Proof.
  intros (cfg & Hread & Hget & Hcall). exists cfg.
  repeat split; [|done|]; apply elem_of_app; by left.
Qed.

Lemma no_core_app tr (c : call Ranked) (r : result (reply Ranked)) :
  core_call c = false → no_core tr → no_core (tr ++ [Event c r]).
Proof. intros Hc Htr. apply Forall_app. split; [done|]. by repeat constructor. Qed.

Lemma uses_app (id : string) (full : option string) (verbose : bool) tr
    (c : call Ranked) (r : result (reply Ranked)) :
  core_call c = false →
  Forall (uses_identifier id full verbose) tr →
  Forall (uses_identifier id full verbose) (tr ++ [Event c r]).
Proof.
  intros Hc Htr. apply Forall_app. split; [done|].
  repeat constructor. unfold uses_identifier. simpl. by destruct c.
Qed.

Lemma ends_ok_uniform (P : list (event Ranked) → Prop) : ends_ok (λ _, P).
Proof. by intros tr. Qed.

Lemma call_ok_grows (P : list (event Ranked) → Prop) (c : call Ranked) :
  (∀ tr tr', P tr → P (tr ++ tr')) → call_ok (λ _, P) c.
Proof. intros HP tr Htr. split; intros ?; by apply HP. Qed.

Lemma keeps_both {A} (T T' : kind → list (event Ranked) → Prop) (m : M A) :
  keeps T m → keeps T' m → keeps (λ κ tr, T κ tr ∧ T' κ tr) m.
Proof. intros Hm Hm' w [Hw Hw']. split; [by apply Hm | by apply Hm']. Qed.

(** The pieces of the script only add to the trace. *)
Lemma generate_and_run_scripts_grows (P : list (event Ranked) → Prop) args autocrew goal :
  (∀ tr tr', P tr → P (tr ++ tr')) →
  keeps (λ _, P) (generate_and_run_scripts X args autocrew goal).
Proof.
  intros HP. apply keeps_generate_and_run_scripts;
    [apply ends_ok_uniform | by intros; apply call_ok_grows..].
Qed.

Lemma handle_ranking_grows (P : list (event Ranked) → Prop) args autocrew goal paths :
  (∀ tr tr', P tr → P (tr ++ tr')) →
  keeps (λ _, P) (handle_ranking args autocrew goal paths).
Proof.
  intros HP. apply keeps_handle_ranking; [apply ends_ok_uniform|].
  intros _. repeat split; intros; by apply call_ok_grows.
Qed.

(** A call whose value the rest of the script uses: the rest starts from a
    trace that ends with the record of that value. *)
Lemma tr_bind_extern {A B} (P : list (event Ranked) → Prop)
    (Q : kind → list (event Ranked) → Prop) (c : call Ranked)
    (summary : A → reply Ranked) (op : E → result A * E) (k : A → M B) :
  (∀ a, tr_triple (λ tr, ∃ tr0, P tr0 ∧ tr = tr0 ++ [Event c (Ok (summary a))]) (k a) Q) →
  (∀ tr x, P tr → Q KRaise (tr ++ [Event c (Raised x)])) →
  tr_triple P (bind (extern c summary op) k) Q.
Proof.
  intros Hk Hraised w Hw. unfold bind, extern.
  destruct (op (env w)) as [[a|x] e']; simpl; [|by apply Hraised].
  apply (Hk a). simpl. by exists (trace w).
Qed.

Lemma tr_bind_pure_call {A B} (P : list (event Ranked) → Prop)
    (Q : kind → list (event Ranked) → Prop) (c : call Ranked)
    (summary : A → reply Ranked) (r : result A) (k : A → M B) :
  (∀ a, r = Ok a →
     tr_triple (λ tr, ∃ tr0, P tr0 ∧ tr = tr0 ++ [Event c (Ok (summary a))]) (k a) Q) →
  (∀ tr x, P tr → Q KRaise (tr ++ [Event c (Raised x)])) →
  tr_triple P (bind (pure_call c summary r) k) Q.
Proof.
  intros Hk Hraised w Hw. unfold bind, pure_call, extern.
  destruct r as [a|x]; simpl; [|by apply Hraised].
  apply (Hk a eq_refl). simpl. by exists (trace w).
Qed.

Lemma tr_bind_input {B} (P : list (event Ranked) → Prop)
    (Q : kind → list (event Ranked) → Prop) (prompt : string) (k : string → M B) :
  (∀ line,
     tr_triple (λ tr, ∃ tr0, P tr0 ∧ tr = tr0 ++ [Event (CInput prompt) (Ok (RStr line))])
               (k line) Q) →
  (∀ tr x, P tr → Q KRaise (tr ++ [Event (CInput prompt) (Raised x)])) →
  tr_triple P (bind (input prompt) k) Q.
Proof.
  intros Hk Hraised w Hw. unfold bind, input.
  destruct (stdin w) as [|line rest]; simpl; [by apply Hraised|].
  apply (Hk line). simpl. by exists (trace w).
Qed.

Lemma tr_pre {A} (P P' : list (event Ranked) → Prop)
    (Q : kind → list (event Ranked) → Prop) (m : M A) :
  (∀ tr, P tr → P' tr) → tr_triple P' m Q → tr_triple P m Q.
Proof. intros HP Hm w Hw. by apply Hm, HP. Qed.

Lemma id_done {A} args (m : M A) :
  keeps no_core_family m → tr_triple no_core m (one_identifier_family args).
Proof. intros Hm w Hw. left. by apply Hm. Qed.

Lemma id_bind {A B} args (m : M A) (k : A → M B) :
  keeps no_core_family m →
  (∀ a, tr_triple no_core (k a) (one_identifier_family args)) →
  tr_triple no_core (bind m k) (one_identifier_family args).
Proof.
  intros Hm Hk. apply (tr_bind _ _ no_core_family); [done | done | |];
    intros tr Htr; by left.
Qed.

(** From the goal on: the configuration is read, the length taken from
    it, and generation and ranking are handed the identifier. *)
Lemma identified_from_goal args args' (full : string) autocrew :
  arg_v args' = arg_v args → overall_goal args' = Some full →
  tr_triple (λ tr, no_core tr ∧ goal_of_run args tr full)
    (bind (extern (CReadConfig "config.ini") RConfig (read_config X "config.ini"))
       (λ config,
          bind (pure_call (CGetInt "CREWAI_SCRIPTS" "overall_goal_truncation_for_filenames")
                  RInt
                  (getint config "CREWAI_SCRIPTS" "overall_goal_truncation_for_filenames" 40))
            (λ max_length,
               let truncated_overall_goal :=
                 truncate_overall_goal (default EmptyString (overall_goal args')) max_length in
               bind (generate_and_run_scripts X args' autocrew truncated_overall_goal)
                 (λ csv_file_paths,
                    handle_ranking args' autocrew truncated_overall_goal csv_file_paths))))
    (one_identifier_family args).
Proof.
  intros Hv Hfull.
  apply tr_bind_extern; [|by intros tr x [Htr _]; left; apply no_core_app].
  intros config.
  apply tr_bind_pure_call;
    [|by intros tr x (tr0 & [Htr _] & ->); left; do 2 (apply no_core_app; [done|])].
  intros max_length Hlength. rewrite Hfull. simpl.
  intros w (tr1 & (tr0 & [Htr Hgoal] & ->) & Hw). right. exists full, max_length.
  set (id := truncate_overall_goal full max_length).
  assert (keeps (λ κ tr, uses_family id (overall_goal args') (arg_v args') κ tr
                         ∧ goal_of_run args tr full ∧ configured_length tr max_length)
            (bind (generate_and_run_scripts X args' autocrew id)
                  (λ csv_file_paths, handle_ranking args' autocrew id csv_file_paths)))
    as Hkeeps.
  { apply keeps_both.
    - apply keeps_bind; [apply uses_generate_and_run_scripts | intros paths].
      apply uses_handle_ranking.
    - assert (∀ tr tr', goal_of_run args tr full ∧ configured_length tr max_length →
                        goal_of_run args (tr ++ tr') full
                        ∧ configured_length (tr ++ tr') max_length) as Hgrows.
      { intros tr tr' [H1 H2].
        split; [by apply goal_of_run_app | by apply configured_length_app]. }
      apply keeps_bind; [by apply generate_and_run_scripts_grows | intros paths].
      by apply handle_ranking_grows. }
  destruct (Hkeeps w) as (Huses & Hgoal' & Hlength').
  - rewrite Hw. split; [|split].
    + unfold uses_family. do 2 (apply uses_app; [done|]). by apply no_core_uses.
    + by do 2 apply goal_of_run_app.
    + exists config. split; [|split; [done|]].
      * apply elem_of_app. left. apply elem_of_app. right. by apply list_elem_of_singleton.
      * apply elem_of_app. right. by apply list_elem_of_singleton.
  - rewrite Hfull, Hv in Huses. by repeat split.
Qed.

Lemma script_one_identifier (argv : list string) (args : Args) :
  tr_triple no_core (script X argv args) (one_identifier_family args).
Proof.
  unfold script.
  apply (tr_try _ _ (one_identifier_family args)); [|by intros; apply tr_handler|done..].
  unfold main.
  apply id_bind; [by apply keeps_extern, call_ok_no_core | intros _].
  apply id_bind; [apply keeps_logging_info | intros _].
  case_decide as Hargv.
  { apply id_done.
    apply keeps_bind; [apply keeps_print | intros _].
    apply keeps_bind; [by apply keeps_extern, call_ok_no_core | intros _].
    apply keeps_exit, ends_ok_no_core. }
  apply id_bind; [apply keeps_logging_info | intros _].
  apply (tr_bind _ _ (one_identifier_family args)); [| |done..].
  2:{ intros _. apply (tr_bind _ _ (one_identifier_family args));
        [by apply tr_logging_info | | done..].
      intros _. by apply tr_exit. }
  apply (tr_try _ _ (one_identifier_family args)); [|by intros; apply tr_handler|done..].
  apply id_bind;
    [by apply keeps_check_latest_version, call_ok_no_core
    | intros [latest_version version_message]].
  apply id_bind; [apply keeps_logging_info | intros _].
  apply id_bind; [apply keeps_handle_help, ends_ok_no_core | intros _].
  apply id_bind;
    [apply keeps_handle_install_dependencies;
       [apply ends_ok_no_core | by intros; apply call_ok_no_core]
    | intros _].
  apply id_bind;
    [apply keeps_handle_upgrade;
       [apply ends_ok_no_core | by intros; apply call_ok_no_core
       | by intros; apply call_ok_no_core]
    | intros _].
  apply id_bind;
    [apply keeps_handle_config_update; intros _; split; intros;
       by apply call_ok_no_core
    | intros _].
  apply id_bind; [by apply keeps_extern, call_ok_no_core | intros autocrew].
  apply id_bind; [by apply keeps_extern, call_ok_no_core | intros _].
  assert (∀ typed,
            Py.truthy_opt Py.truthy_str (overall_goal args) = false →
            ∀ tr, (∃ tr0, no_core tr0
                          ∧ tr = tr0 ++ [Event (CInput "Please set the overall goal for your crew: ")
                                               (Ok (RStr typed))]) →
                  no_core tr ∧ goal_of_run args tr typed) as Htyped.
  { intros typed Hgiven tr (tr0 & Htr0 & ->). split; [by apply no_core_app|].
    unfold goal_of_run. rewrite Hgiven.
    apply elem_of_app. right. by apply list_elem_of_singleton. }
  destruct (overall_goal args) as [[|c goal]|] eqn:Hgoal; simpl.
  - eapply tr_ext; [intros w; symmetry; apply bind_assoc|].
    apply tr_bind_input; [|by intros tr x Htr; left; apply no_core_app].
    intros typed.
    eapply tr_ext; [intros w; symmetry; apply bind_ret_l|].
    eapply tr_pre; [by apply Htyped|].
    by apply (identified_from_goal args _ typed).
  - eapply tr_ext; [intros w; symmetry; apply bind_ret_l|].
    eapply (tr_pre _ (λ tr, no_core tr ∧ goal_of_run args tr (String c goal))).
    { intros tr Htr. split; [done|]. unfold goal_of_run. by rewrite Hgoal. }
    by apply (identified_from_goal args args (String c goal)).
  - eapply tr_ext; [intros w; symmetry; apply bind_assoc|].
    apply tr_bind_input; [|by intros tr x Htr; left; apply no_core_app].
    intros typed.
    eapply tr_ext; [intros w; symmetry; apply bind_ret_l|].
    eapply tr_pre; [by apply Htyped|].
    by apply (identified_from_goal args _ typed).
Qed.

(** X21.  Every call into [core] of a run carries the one identifier of
    the run.  Either the run makes no call into [core]; or its trace holds
    the goal [full] of the run (the goal of the command line, or, when that
    is absent or empty, the line [input] handed back at the prompt) and the
    length [max_length] that [getint] handed back for the configuration
    read from [config.ini], and then generation, discovery and report
    saving all receive [full] truncated to [max_length], and the evaluator
    receives [full] itself, with the verbosity of the command line. *)
Theorem run_uses_one_identifier (argv : list string) (args : Args)
    (lines : list string) (e : E) :
  let tr := trace (script X argv args (start lines e)).2 in
  no_core tr
  ∨ ∃ full max_length,
      goal_of_run args tr full
      ∧ configured_length tr max_length
      ∧ Forall (uses_identifier (truncate_overall_goal full max_length) (Some full)
                                (arg_v args)) tr.
Proof.
  apply (script_one_identifier argv args (start lines e)). constructor.
Qed.

End Identifier.

(** [autocrew.py -r] with the goal typed at the prompt and a [config.ini]
    that sets the length to 12: generation, discovery and report saving
    receive the first 12 characters of the typed line, the evaluator the
    whole line. *)
Example typed_goal_truncated_to_configured_length :
  let r := script (with_length "12") ["autocrew.py"; "-r"] rank_prompted
             (start ["Launch a product"] Run.empty_store) in
  r.1 = Exit 0
  ∧ goal_of_run rank_prompted (trace r.2) "Launch a product"
  ∧ configured_length (trace r.2) 12
  ∧ generation_goals (trace r.2) = ["Launch a pro"]
  ∧ filter (λ c, core_call c = true) (ev_call <$> trace r.2)
    = [CGenerateScripts "Launch a pro" 1;
       CRankCrews ["scripts/Launch a pro-1.csv"] (Some "Launch a product") false;
       CSaveRankingOutput [RankedEntry 1 false] "Launch a pro"].
Proof.
  split; [by vm_compute|]. split; [|split; [|by vm_compute]].
  - vm_compute. repeat first [by left | right].
  - exists {[ "CREWAI_SCRIPTS" := {[ "overall_goal_truncation_for_filenames" := "12" ]} ]}.
    split; [|split; [by vm_compute|]]; vm_compute; repeat first [by left | right].
Qed.

(** A negative length in [config.ini] reaches the truncation as it is: with
    [-8] the identifier is the goal without its last 8 characters. *)
Example negative_configured_length :
  let r := script (with_length "-8") ["autocrew.py"; "Launch a product"]
             (Run.no_flags "Launch a product") (start [] Run.empty_store) in
  r.1 = Exit 0
  ∧ generation_goals (trace r.2) = ["Launch a"].
Proof. by vm_compute. Qed.
